(** * Cerbo EHR dashboard front end: a shallow embedding and its properties

    The development follows the TypeScript sources of the front end:
    - [JSDate]: the part of the ECMAScript [Date] object the pages rely on
      (time values, local fields, [setDate], the ISO date part);
    - [utils]: [src/lib/utils.ts] ([calculateAge], [formatPhoneNumber]);
    - [badge]: [components/ui/badge.tsx];
    - [types]: the interfaces of [types/index.ts] that the pages read;
    - [api] and the call groups [patientApi], [appointmentApi],
      [providerApi], [clinicalRecordApi], [dashboardApi]: [services/api.ts];
    - [ReactQuery]: the life cycle of one query as the pages observe it;
    - [AppointmentsPage], [PatientsPage], [DashboardPage]: the pages;
    - [Spec]: the vocabulary the properties are stated with;
    - [JSZone], [Zoned], [SpecZone]: dates in a time zone whose offset
      changes (daylight saving), and the date code of the pages on them.

    Numbers are integers ([Z]), strings are [string], records follow the
    interfaces of [types/index.ts]. *)

From Stdlib Require Import ZArith Lia Bool List String Ascii.
From stdpp Require Import base option gmap strings pretty.

Local Open Scope Z_scope.

(* ===================================================================== *)
(** * Definitions *)
(* ===================================================================== *)

(** ** ECMAScript dates (ECMA-262, section "Date Objects")

    A [Date] holds a time value: milliseconds since 1970-01-01T00:00:00Z.
    The pages only build dates from the clock and shift them by whole days,
    so the time value is always a finite number; [NaN] dates are handled
    where the source tests for them ([utils.calculateAge]).  The local time
    zone is here a fixed offset [tza] in milliseconds; [JSZone] below has
    the zones whose offset changes (daylight saving). *)
Module JSDate.

Definition msPerDay : Z := 86400000.

Definition Day (t : Z) : Z := t / msPerDay.

Definition TimeWithinDay (t : Z) : Z := t mod msPerDay.

Definition DaysInYear (y : Z) : Z :=
  if negb (y mod 4 =? 0) then 365
  else if negb (y mod 100 =? 0) then 366
  else if negb (y mod 400 =? 0) then 365
  else 366.

Definition DayFromYear (y : Z) : Z :=
  365 * (y - 1970) + (y - 1969) / 4 - (y - 1901) / 100 + (y - 1601) / 400.

Definition TimeFromYear (y : Z) : Z := msPerDay * DayFromYear y.

(** The year of a day number: ECMA-262 defines it as the largest [y] with
    [DayFromYear y <= d].  It is computed from the mean length of a year
    and corrected by one; [YearFromDay_spec] shows it meets the definition. *)
Definition YearFromDay (d : Z) : Z :=
  let y0 := 1970 + (400 * d) / 146097 in
  if d <? DayFromYear y0 then y0 - 1
  else if DayFromYear (y0 + 1) <=? d then y0 + 1
  else y0.

Definition YearFromTime (t : Z) : Z := YearFromDay (Day t).

Definition LeapFlag (y : Z) : Z := if DaysInYear y =? 366 then 1 else 0.

Definition InLeapYear (t : Z) : Z := LeapFlag (YearFromTime t).

Definition DayWithinYear (t : Z) : Z := Day t - DayFromYear (YearFromTime t).

(** Month numbers are 0 (January) to 11 (December). *)
Definition MonthFromDayWithinYear (d l : Z) : Z :=
  if d <? 31 then 0
  else if d <? 59 + l then 1
  else if d <? 90 + l then 2
  else if d <? 120 + l then 3
  else if d <? 151 + l then 4
  else if d <? 181 + l then 5
  else if d <? 212 + l then 6
  else if d <? 243 + l then 7
  else if d <? 273 + l then 8
  else if d <? 304 + l then 9
  else if d <? 334 + l then 10
  else 11.

Definition MonthFromTime (t : Z) : Z :=
  MonthFromDayWithinYear (DayWithinYear t) (InLeapYear t).

(** Number of days of the year before month [m] starts. *)
Definition MonthStart (m l : Z) : Z :=
  if m =? 0 then 0
  else if m =? 1 then 31
  else if m =? 2 then 59 + l
  else if m =? 3 then 90 + l
  else if m =? 4 then 120 + l
  else if m =? 5 then 151 + l
  else if m =? 6 then 181 + l
  else if m =? 7 then 212 + l
  else if m =? 8 then 243 + l
  else if m =? 9 then 273 + l
  else if m =? 10 then 304 + l
  else 334 + l.

Definition DaysInMonth (m l : Z) : Z :=
  if m =? 1 then 28 + l
  else if (m =? 3) || (m =? 5) || (m =? 8) || (m =? 10) then 30
  else 31.

(** Day of the month, 1 to 31. *)
Definition DateFromTime (t : Z) : Z :=
  DayWithinYear t - MonthStart (MonthFromTime t) (InLeapYear t) + 1.

(** Day of the week: 0 is Sunday, 1 Monday, ..., 6 Saturday. *)
Definition WeekDay (t : Z) : Z := (Day t + 4) mod 7.

Definition LocalTime (tza t : Z) : Z := t + tza.

Definition UTC (tza t : Z) : Z := t - tza.

(** [MakeDay year month date]: the day number of the first of the month
    plus [date - 1]; [date] may lie outside the month, and [month] outside
    0..11, which is how [setDate] rolls over into neighbouring months. *)
Definition MakeDay (year month date : Z) : Z :=
  let ym := year + month / 12 in
  let mn := month mod 12 in
  DayFromYear ym + MonthStart mn (LeapFlag ym) + date - 1.

Definition MakeDate (day time : Z) : Z := day * msPerDay + time.

(** *** Methods of [Date.prototype], on the time value [t] *)

Definition getFullYear (tza t : Z) : Z := YearFromTime (LocalTime tza t).

Definition getMonth (tza t : Z) : Z := MonthFromTime (LocalTime tza t).

Definition getDate (tza t : Z) : Z := DateFromTime (LocalTime tza t).

Definition getDay (tza t : Z) : Z := WeekDay (LocalTime tza t).

(** [d.setDate(dt)]: replaces the day of the month in local time and keeps
    the time of day; returns the new time value. *)
Definition setDate (tza t dt : Z) : Z :=
  let lt := LocalTime tza t in
  let newDate :=
    MakeDate (MakeDay (YearFromTime lt) (MonthFromTime lt) dt) (TimeWithinDay lt) in
  UTC tza newDate.

(** *** [toISOString().split('T')[0]] *)

Definition digit (n : Z) : ascii := ascii_of_nat (48 + Z.to_nat (n mod 10)).

Definition pad2 (n : Z) : string :=
  String (digit (n / 10)) (String (digit n) EmptyString).

Definition pad4 (n : Z) : string :=
  String (digit (n / 1000)) (String (digit (n / 100)) (pad2 n)).

Definition pad6 (n : Z) : string :=
  String (digit (n / 100000)) (String (digit (n / 10000)) (pad4 n)).

(** Years 0 to 9999 print with four digits, the others with a sign and six. *)
Definition isoYear (y : Z) : string :=
  if (0 <=? y) && (y <=? 9999) then pad4 y
  else if y <? 0 then String "-" (pad6 (- y))
  else String "+" (pad6 y).

(** The UTC calendar date of a time value, as year, month (1..12), day. *)
Record CivilDate : Type := mkCivil { c_year : Z; c_month : Z; c_day : Z }.

Definition utcDate (t : Z) : CivilDate :=
  mkCivil (YearFromTime t) (MonthFromTime t + 1) (DateFromTime t).

Definition isoString (c : CivilDate) : string :=
  (isoYear (c_year c) ++ "-" ++ pad2 (c_month c) ++ "-" ++ pad2 (c_day c))%string.

Definition toISODate (t : Z) : string := isoString (utcDate t).

(** Day number of a calendar date (month 1..12). *)
Definition civilDay (c : CivilDate) : Z :=
  MakeDay (c_year c) (c_month c - 1) (c_day c).

(** [Date.UTC(y, m, d, h)] for test data: month 1..12 here. *)
Definition atUTC (y m d h : Z) : Z :=
  MakeDate (MakeDay y (m - 1) d) (h * 3600000).

End JSDate.

(** ** [src/lib/utils.ts] *)
Module utils.
Import JSDate.

(** [calculateAge(birthDate)], from the time value on.  [now] is the
    value of [new Date()] at the call and [birth] the time value of
    [new Date(birthDate)]: [None] when [birthDate] is falsy or does not
    parse to a date (the two early returns).  [Zoned.calculateAge] below
    starts from the argument itself. *)
Definition calculateAge (tza now : Z) (birth : option Z) : Z :=
  match birth with
  | None => 0
  | Some b =>
      let age := getFullYear tza now - getFullYear tza b in
      let monthDiff := getMonth tza now - getMonth tza b in
      if (monthDiff <? 0) || ((monthDiff =? 0) && (getDate tza now <? getDate tza b))
      then age - 1
      else age
  end.

(** The character class [\d] without the unicode flag: ASCII 0 to 9. *)
Definition isDigit (c : ascii) : bool :=
  let n := nat_of_ascii c in ((48 <=? n) && (n <=? 57))%nat.

(** [s.replace(/\D/g, "")] *)
Fixpoint stripNonDigits (s : string) : string :=
  match s with
  | EmptyString => EmptyString
  | String c rest =>
      if isDigit c then String c (stripNonDigits rest) else stripNonDigits rest
  end.

(** [s.slice(a, b)] and [s.slice(a)] for indices inside the string. *)
Definition slice (a b : nat) (s : string) : string := substring a (b - a) s.

Definition sliceFrom (a : nat) (s : string) : string :=
  substring a (String.length s - a) s.

Definition formatPhoneNumber (phone : string) : string :=
  if String.eqb phone "" then ""
  else
    let digits := stripNonDigits phone in
    if (String.length digits =? 10)%nat then
      ("(" ++ slice 0 3 digits ++ ") " ++ slice 3 6 digits ++ "-" ++ sliceFrom 6 digits)%string
    else phone.

(** [isValidPhone]: [/^\d{10}$/] on the digits of the input. *)
Definition isValidPhone (phone : string) : bool :=
  (String.length (stripNonDigits phone) =? 10)%nat.

(** [toLowerCase] on ASCII letters (status and urgency values are ASCII
    identifiers). *)
Definition lowerChar (c : ascii) : ascii :=
  let n := nat_of_ascii c in
  if ((65 <=? n) && (n <=? 90))%nat then ascii_of_nat (n + 32) else c.

Fixpoint toLowerCase (s : string) : string :=
  match s with
  | EmptyString => EmptyString
  | String c rest => String (lowerChar c) (toLowerCase rest)
  end.

End utils.

(** ** [components/ui/badge.tsx] *)
Module badge.

(** The keys of [variants.variant]. *)
Inductive Variant : Type :=
  | v_default | v_secondary | v_destructive | v_outline
  | v_active | v_inactive | v_scheduled | v_confirmed | v_cancelled
  | v_completed | v_in_progress | v_urgent | v_high | v_medium | v_low
  | v_success | v_warning | v_error | v_info.

Definition baseClass : string :=
  "inline-flex items-center rounded-full border px-2.5 py-0.5 text-xs font-semibold transition-colors focus:outline-none focus:ring-2 focus:ring-ring focus:ring-offset-2".

Definition variantClass (v : Variant) : string :=
  match v with
  | v_default => "border-transparent bg-primary text-primary-foreground hover:bg-primary/80"
  | v_secondary => "border-transparent bg-secondary text-secondary-foreground hover:bg-secondary/80"
  | v_destructive => "border-transparent bg-destructive text-destructive-foreground hover:bg-destructive/80"
  | v_outline => "text-foreground"
  | v_active => "border-transparent bg-green-100 text-green-800"
  | v_inactive => "border-transparent bg-gray-100 text-gray-800"
  | v_scheduled => "border-transparent bg-blue-100 text-blue-800"
  | v_confirmed => "border-transparent bg-green-100 text-green-800"
  | v_cancelled => "border-transparent bg-red-100 text-red-800"
  | v_completed => "border-transparent bg-gray-100 text-gray-800"
  | v_in_progress => "border-transparent bg-yellow-100 text-yellow-800"
  | v_urgent => "border-transparent bg-red-100 text-red-800"
  | v_high => "border-transparent bg-red-100 text-red-800"
  | v_medium => "border-transparent bg-yellow-100 text-yellow-800"
  | v_low => "border-transparent bg-green-100 text-green-800"
  | v_success => "border-transparent bg-status-success text-white"
  | v_warning => "border-transparent bg-status-warning text-white"
  | v_error => "border-transparent bg-status-error text-white"
  | v_info => "border-transparent bg-status-info text-white"
  end.

Definition defaultVariant : Variant := v_default.

(** [badgeVariants({ variant })]: the base classes followed by the classes
    of the variant; an absent [variant] prop selects [defaultVariants]. *)
Definition badgeVariants (variant : option Variant) : string :=
  (baseClass ++ " " ++ variantClass (default defaultVariant variant))%string.

(** [Badge]: the rendered [className] when the caller passes none. *)
Definition Badge (variant : option Variant) : string := badgeVariants variant.

End badge.

(** ** [types/index.ts]: the shapes the pages and the client exchange *)
Module types.

Record PaginatedResponse (A : Type) : Type := mkPage {
  items : list A;
  total : Z;
  page : Z;
  pages : Z;
  per_page : Z;
  has_next : bool;
  has_prev : bool
}.
Arguments mkPage {A}.
Arguments items {A}.
Arguments total {A}.
Arguments page {A}.
Arguments pages {A}.
Arguments per_page {A}.
Arguments has_next {A}.
Arguments has_prev {A}.

(** The fields of [Patient] the list page shows. *)
Record Patient : Type := mkPatient {
  patient_id : Z;
  full_name : string;
  date_of_birth : string;
  phone_primary : option string;
  is_active : bool
}.

(** The fields of [Appointment] the list page shows. *)
Record Appointment : Type := mkAppointment {
  appointment_id : Z;
  appointment_patient_id : Z;
  appointment_provider_id : Z;
  appointment_status : string;
  appointment_urgency : string
}.

Record Provider : Type := mkProvider {
  provider_id : Z;
  display_name : string
}.

(** [today/overview] is typed [any]; the counters read from it may be
    absent. *)
Record TodayOverview : Type := mkOverview {
  overview_total : option Z;
  overview_scheduled : option Z;
  overview_completed : option Z;
  overview_in_progress : option Z
}.

Record RecentActivity : Type := mkActivity {
  activity_id : string;
  activity_type : string
}.

Record DashboardStats : Type := mkStats {
  total_patients : Z;
  active_patients : Z;
  todays_appointments : Z;
  pending_appointments : Z;
  completed_appointments : Z;
  active_providers : Z;
  recent_activities : list RecentActivity
}.

End types.

(** ** [services/api.ts] *)
Module api.
Import types.

(** What the handlers can touch: the browser ([window], absent while a
    page is rendered on the server) with its [localStorage] and location,
    and the notifications raised through [toast.error], oldest first. *)
Record Browser : Type := mkBrowser {
  localStorage : gmap string string;
  location_href : string
}.

Record Env : Type := mkEnv {
  window : option Browser;
  toasts : list string
}.

(** [response.data] of a failed call: the [error] field of [ApiResponse]. *)
Record ErrorBody : Type := mkErrorBody {
  body_error : option string
}.

Record ErrorResponse : Type := mkErrorResponse {
  status : Z;
  data : ErrorBody
}.

(** [AxiosError]: [response] is absent when no reply arrived (time-out,
    network failure). *)
Record AxiosError : Type := mkAxiosError {
  response : option ErrorResponse;
  code : option string;
  message : string
}.

(** A settled promise. *)
Inductive Settled (A : Type) : Type :=
  | Fulfilled (a : A)
  | Rejected (e : AxiosError).
Arguments Fulfilled {A}.
Arguments Rejected {A}.

(** A computation that reads and changes the environment. *)
Definition Eff (A : Type) : Type := Env -> Env * A.

Definition toast_error (msg : string) (env : Env) : Env :=
  mkEnv (window env) (toasts env ++ [msg]).

(** JavaScript truthiness of a string that may be [undefined]. *)
Definition truthy (s : option string) : bool :=
  match s with
  | Some v => negb (String.eqb v "")
  | None => false
  end.

(** [a || b] where [a] may be [undefined] and [b] is a string. *)
Definition jsOr (a : option string) (b : string) : string :=
  if truthy a then default "" a else b.

(** [error.response?.status] *)
Definition error_status (error : AxiosError) : option Z :=
  status <$> response error.

(** [error.response?.data?.error] *)
Definition error_data_error (error : AxiosError) : option string :=
  response error ≫= (fun r => body_error (data r)).

Definition statusIs (error : AxiosError) (n : Z) : bool :=
  match error_status error with
  | Some s => s =? n
  | None => false
  end.

(** [error.response?.status >= 500]: false when there is no response. *)
Definition statusAtLeast (error : AxiosError) (n : Z) : bool :=
  match error_status error with
  | Some s => n <=? s
  | None => false
  end.

Definition codeIs (error : AxiosError) (c : string) : bool :=
  match code error with
  | Some k => String.eqb k c
  | None => false
  end.

(** The headers of a request configuration. *)
Record RequestConfig : Type := mkConfig {
  headers : gmap string string
}.

(** Request interceptor: adds the bearer token when one is stored. *)
Definition requestInterceptor (config : RequestConfig) (env : Env) : RequestConfig :=
  let token := window env ≫= (fun w => localStorage w !! "auth_token") in
  if truthy token then
    mkConfig (<["Authorization" := ("Bearer " ++ default "" token)%string]> (headers config))
  else config.

(** Response interceptor, first handler: the response passes through. *)
Definition responseFulfilled {A : Type} (r : A) : Eff (Settled A) :=
  fun env => (env, Fulfilled r).

(** Response interceptor, second handler. *)
Definition responseRejected {A : Type} (error : AxiosError) : Eff (Settled A) :=
  fun env =>
    let env' :=
      if statusIs error 401 then
        match window env with
        | Some w =>
            mkEnv (Some (mkBrowser (delete "auth_token" (localStorage w)) "/login"))
                  (toasts env)
        | None => env
        end
      else if statusIs error 403 then toast_error "Access forbidden" env
      else if statusIs error 404 then toast_error "Resource not found" env
      else if statusAtLeast error 500 then
        toast_error "Server error. Please try again later." env
      else if codeIs error "ECONNABORTED" then
        toast_error "Request timeout. Please try again." env
      else
        let message :=
          jsOr (error_data_error error)
               (jsOr (Some (message error)) "An error occurred") in
        toast_error message env
    in (env', Rejected error).

(** The request methods of the client. *)
Inductive Method : Type := GET | POST | PUT | DELETE.

(** A JavaScript number as the pages use them: an integer, or [NaN]. *)
Inductive JsNumber : Type := Num (z : Z) | NaN.

(** A value of a query parameter object. *)
Inductive Param : Type := PStr (s : string) | PNum (n : JsNumber).

(** What the HTTP layer hands to the response interceptor for one call:
    the data of an accepted reply, or the error.  The client is created
    without a [validateStatus] of its own, so a reply outside 200..299
    (a 401 among them) arrives here as [Rejected] with its [response]. *)
Definition Reply (A : Type) : Type := Settled A.

(** [api.get/post/put/delete(url, { params })] followed by
    [response.data]: every call of every call group is an instance. *)
Definition request {A : Type} (m : Method) (url : string)
    (params : gmap string Param) (reply : Reply A) : Eff (Settled A) :=
  match reply with
  | Fulfilled r => responseFulfilled r
  | Rejected e => responseRejected e
  end.

Definition ret {A : Type} (a : A) : Eff A := fun env => (env, a).

Definition bind {A B : Type} (m : Eff A) (k : A -> Eff B) : Eff B :=
  fun env => let '(env', a) := m env in k a env'.

(** [Promise.all] of three promises: all the values, or the rejection of
    the first one that failed (taken here in the order of the calls). *)
Definition all3 {A B C : Type} (a : Settled A) (b : Settled B) (c : Settled C)
  : Settled (A * B * C) :=
  match a, b, c with
  | Fulfilled x, Fulfilled y, Fulfilled z => Fulfilled (x, y, z)
  | Rejected e, _, _ => Rejected e
  | _, Rejected e, _ => Rejected e
  | _, _, Rejected e => Rejected e
  end.

(** [x || 0] on a counter that may be absent. *)
Definition numOr0 (x : option Z) : Z :=
  match x with
  | Some n => n
  | None => 0
  end.

End api.

Notation "'await' x ':=' m 'in' k" := (api.bind m (fun x => k))
  (at level 10, x name, m at level 100, k at level 200).

Module patientApi.
Import types api.

Definition getAll (params : gmap string Param)
  : Reply (PaginatedResponse Patient) -> Eff (Settled (PaginatedResponse Patient)) :=
  request GET "/api/v1/patients" params.

Definition getById (id : Z) : Reply Patient -> Eff (Settled Patient) :=
  request GET ("/api/v1/patients/" ++ pretty id) ∅.

Definition delete (id : Z) : Reply unit -> Eff (Settled unit) :=
  request DELETE ("/api/v1/patients/" ++ pretty id) ∅.

Definition reactivate (id : Z) : Reply Patient -> Eff (Settled Patient) :=
  request POST ("/api/v1/patients/" ++ pretty id ++ "/reactivate") ∅.

End patientApi.

Module appointmentApi.
Import types api.

Definition getAll (params : gmap string Param)
  : Reply (PaginatedResponse Appointment)
    -> Eff (Settled (PaginatedResponse Appointment)) :=
  request GET "/api/v1/appointments" params.

Definition getById (id : Z) : Reply Appointment -> Eff (Settled Appointment) :=
  request GET ("/api/v1/appointments/" ++ pretty id) ∅.

Definition checkIn (id : Z) : Reply Appointment -> Eff (Settled Appointment) :=
  request POST ("/api/v1/appointments/" ++ pretty id ++ "/check-in") ∅.

Definition getTodayOverview : Reply TodayOverview -> Eff (Settled TodayOverview) :=
  request GET "/api/v1/appointments/today/overview" ∅.

End appointmentApi.

Module providerApi.
Import types api.

Definition getAll (params : gmap string Param)
  : Reply (PaginatedResponse Provider) -> Eff (Settled (PaginatedResponse Provider)) :=
  request GET "/api/v1/providers" params.

Definition getById (id : Z) : Reply Provider -> Eff (Settled Provider) :=
  request GET ("/api/v1/providers/" ++ pretty id) ∅.

End providerApi.

Module clinicalRecordApi.
Import types api.

(** Clinical records are opaque to the client code modelled here. *)
Definition getById {ClinicalRecord : Type} (id : Z)
  : Reply ClinicalRecord -> Eff (Settled ClinicalRecord) :=
  request GET ("/api/v1/clinical-records/" ++ pretty id) ∅.

Definition markAsReviewed {ClinicalRecord : Type} (id : Z)
  : Reply ClinicalRecord -> Eff (Settled ClinicalRecord) :=
  request POST ("/api/v1/clinical-records/" ++ pretty id ++ "/review") ∅.

End clinicalRecordApi.

Module dashboardApi.
Import types api.

(** [getStats]: the three calls are started together and awaited with
    [Promise.all]; the replies of the backend are the three arguments. *)
Definition getStats
    (patientsReply : Reply (PaginatedResponse Patient))
    (overviewReply : Reply TodayOverview)
    (providersReply : Reply (PaginatedResponse Provider))
  : Eff (Settled DashboardStats) :=
  await p := patientApi.getAll {[ "per_page" := PNum (Num 1) ]} patientsReply in
  await a := appointmentApi.getTodayOverview overviewReply in
  await v := providerApi.getAll
               (<[ "status" := PStr "active" ]> {[ "per_page" := PNum (Num 1) ]})
               providersReply in
  ret
    match all3 p a v with
    | Rejected e => Rejected e
    | Fulfilled (patientsResp, appointmentsResp, providersResp) =>
        Fulfilled
          {| total_patients := total patientsResp;
             active_patients := total patientsResp;
             todays_appointments := numOr0 (overview_total appointmentsResp);
             pending_appointments := numOr0 (overview_scheduled appointmentsResp);
             completed_appointments := numOr0 (overview_completed appointmentsResp);
             active_providers := total providersResp;
             recent_activities := [] |}
    end.

End dashboardApi.

(** ** The query cache as a page observes it ([useQuery])

    One query (one query key) of the query library: its state, the events
    that change it, and the fields [useQuery] returns.  A failed fetch is
    the final failure, after the retries of the library. *)
Module ReactQuery.
Import api.

Inductive Status : Type := st_loading | st_success | st_error.

Record Query (A : Type) : Type := mkQuery {
  q_status : Status;
  q_data : option A;
  q_error : option AxiosError;
  q_fetching : bool
}.
Arguments mkQuery {A}.
Arguments q_status {A}.
Arguments q_data {A}.
Arguments q_error {A}.
Arguments q_fetching {A}.

(** A mounted, enabled query starts fetching with nothing to show. *)
Definition initial {A : Type} : Query A := mkQuery st_loading None None true.

Inductive Event (A : Type) : Type :=
  | Resolve (a : A)
  | Reject (e : AxiosError)
  | Refetch.
Arguments Resolve {A}.
Arguments Reject {A}.
Arguments Refetch {A}.

(** The reducer of the query: a fetch that starts without data goes back
    to loading and drops the error; a settled fetch is only taken while
    one is in flight. *)
Definition step {A : Type} (q : Query A) (ev : Event A) : Query A :=
  match ev with
  | Resolve a =>
      if q_fetching q then mkQuery st_success (Some a) None false else q
  | Reject e =>
      if q_fetching q then mkQuery st_error (q_data q) (Some e) false else q
  | Refetch =>
      match q_data q with
      | None => mkQuery st_loading None None true
      | Some _ => mkQuery (q_status q) (q_data q) (q_error q) true
      end
  end.

(** The states a query goes through, with the outcome of the fetch that
    settled last. *)
Inductive reaches {A : Type} : Query A -> option (Settled A) -> Prop :=
  | reach_initial : reaches initial None
  | reach_resolve q o a :
      reaches q o -> q_fetching q = true ->
      reaches (step q (Resolve a)) (Some (Fulfilled a))
  | reach_reject q o e :
      reaches q o -> q_fetching q = true ->
      reaches (step q (Reject e)) (Some (Rejected e))
  | reach_refetch q o :
      reaches q o -> q_fetching q = false ->
      reaches (step q Refetch) o.

(** The fields of the result of [useQuery] that the pages read. *)
Record QueryResult (A : Type) : Type := mkResult {
  data : option A;
  isLoading : bool;
  error : option AxiosError
}.
Arguments mkResult {A}.
Arguments data {A}.
Arguments isLoading {A}.
Arguments error {A}.

Definition useQuery {A : Type} (q : Query A) : QueryResult A :=
  mkResult (q_data q)
           (match q_status q with st_loading => true | _ => false end)
           (q_error q).

End ReactQuery.

(** ** [pages/appointments/index.tsx] *)
Module AppointmentsPage.
Import JSDate utils types api ReactQuery badge.

Inductive ViewType : Type := view_day | view_week | view_list.

Inductive Direction : Type := prev | next.

Record State : Type := mkState {
  selectedDate : Z;
  viewType : ViewType;
  statusFilter : string;
  providerFilter : string
}.

(** [useState] initial values; [now] is the clock at the first render. *)
Definition initialState (now : Z) : State := mkState now view_day "all" "all".

Definition dateStr (s : State) : string := toISODate (selectedDate s).

(** The two [Date] objects [start] and [end] that [getDateRange] builds. *)
Definition getDateRangeDates (tza : Z) (s : State) : Z * Z :=
  let start := selectedDate s in
  let end_ := selectedDate s in
  match viewType s with
  | view_week =>
      let day := getDay tza start in
      let diff := getDate tza start - day + (if day =? 0 then -6 else 1) in
      let start := setDate tza start diff in
      let end_ := setDate tza end_ (getDate tza start + 6) in
      (start, end_)
  | _ =>
      let end_ := setDate tza end_ (getDate tza start) in
      (start, end_)
  end.

Record DateRange : Type := mkRange {
  start_date : string;
  end_date : string
}.

Definition getDateRange (tza : Z) (s : State) : DateRange :=
  let '(start, end_) := getDateRangeDates tza s in
  mkRange (toISODate start) (toISODate end_).

(** [parseInt(s)] with no radix: leading white space, a sign, then decimal
    digits or, after [0x], hexadecimal digits; [NaN] without digits.  The
    digits are read as an integer, which is the number JavaScript returns
    up to [2^53]; beyond it JavaScript rounds to a double. *)
Definition isSpace (c : ascii) : bool :=
  let n := nat_of_ascii c in
  ((n =? 32) || ((9 <=? n) && (n <=? 13)))%nat.

Fixpoint dropSpaces (s : string) : string :=
  match s with
  | String c rest => if isSpace c then dropSpaces rest else s
  | EmptyString => s
  end.

Definition hexValue (c : ascii) : option Z :=
  let n := nat_of_ascii c in
  if ((48 <=? n) && (n <=? 57))%nat then Some (Z.of_nat n - 48)
  else if ((97 <=? n) && (n <=? 102))%nat then Some (Z.of_nat n - 87)
  else if ((65 <=? n) && (n <=? 70))%nat then Some (Z.of_nat n - 55)
  else None.

Fixpoint readDigits (radix : Z) (s : string) (acc : option Z) : option Z :=
  match s with
  | String c rest =>
      match hexValue c with
      | Some v =>
          if v <? radix then readDigits radix rest (Some (radix * default 0 acc + v))
          else acc
      | None => acc
      end
  | EmptyString => acc
  end.

Definition readUnsigned (s : string) : option Z :=
  match s with
  | String "0" (String "x" rest) | String "0" (String "X" rest) =>
      readDigits 16 rest None
  | _ => readDigits 10 s None
  end.

Definition parseInt (s : string) : JsNumber :=
  let s := dropSpaces s in
  let '(sign, body) :=
    match s with
    | String "-" rest => (-1, rest)
    | String "+" rest => (1, rest)
    | _ => (1, s)
    end in
  match readUnsigned body with
  | Some n => Num (sign * n)
  | None => NaN
  end.

(** The [params] object of the list query. *)
Definition queryParams (tza : Z) (s : State) : gmap string Param :=
  let r := getDateRange tza s in
  let params : gmap string Param :=
    <[ "end_date" := PStr (end_date r) ]> {[ "start_date" := PStr (start_date r) ]} in
  let params :=
    if negb (String.eqb (statusFilter s) "all")
    then <[ "status" := PStr (statusFilter s) ]> params else params in
  let params :=
    if negb (String.eqb (providerFilter s) "all")
    then <[ "provider_id" := PNum (parseInt (providerFilter s)) ]> params else params in
  params.

(** The list query of the page. *)
Definition queryFn (tza : Z) (s : State)
  : Reply (PaginatedResponse Appointment)
    -> Eff (Settled (PaginatedResponse Appointment)) :=
  appointmentApi.getAll (queryParams tza s).

Definition navigateDate (tza : Z) (direction : Direction) (s : State) : State :=
  let newDate := selectedDate s in
  let newDate :=
    match viewType s with
    | view_day =>
        setDate tza newDate
          (getDate tza newDate + (match direction with next => 1 | prev => -1 end))
    | view_week =>
        setDate tza newDate
          (getDate tza newDate + (match direction with next => 7 | prev => -7 end))
    | view_list => newDate
    end in
  mkState newDate (viewType s) (statusFilter s) (providerFilter s).

(** The handlers of the controls. *)
Inductive Event : Type :=
  | NavigateDate (direction : Direction)
  | Today (now : Z)
  | SetViewType (v : ViewType)
  | SetStatusFilter (value : string)
  | SetProviderFilter (value : string).

Definition step (tza : Z) (s : State) (ev : Event) : State :=
  match ev with
  | NavigateDate d => navigateDate tza d s
  | Today now => mkState now (viewType s) (statusFilter s) (providerFilter s)
  | SetViewType v => mkState (selectedDate s) v (statusFilter s) (providerFilter s)
  | SetStatusFilter v => mkState (selectedDate s) (viewType s) v (providerFilter s)
  | SetProviderFilter v => mkState (selectedDate s) (viewType s) (statusFilter s) v
  end.

(** What the page shows in place of the list. *)
Inductive View : Type :=
  | ErrorView
  | LoadingView
  | EmptyView
  | ListView (cards : list Appointment).

Definition render (r : QueryResult (PaginatedResponse Appointment)) : View :=
  match error r with
  | Some _ => ErrorView
  | None =>
      if isLoading r then LoadingView
      else
        match data r with
        | Some d =>
            if (List.length (items d) =? 0)%nat then EmptyView else ListView (items d)
        | None => ListView []
        end
  end.

(** [AppointmentCard]: the variant of the status badge. *)
Definition getStatusVariant (status : string) : Variant :=
  let s := toLowerCase status in
  if String.eqb s "scheduled" then v_scheduled
  else if String.eqb s "confirmed" then v_confirmed
  else if String.eqb s "cancelled" then v_cancelled
  else if String.eqb s "completed" then v_completed
  else if String.eqb s "in_progress" || String.eqb s "checked_in" then v_in_progress
  else v_default.

(** [AppointmentCard]: the variant of the urgency badge. *)
Definition getPriorityVariant (urgency : string) : Variant :=
  let u := toLowerCase urgency in
  if String.eqb u "urgent" then v_urgent
  else if String.eqb u "high" then v_high
  else if String.eqb u "medium" then v_medium
  else if String.eqb u "low" then v_low
  else v_medium.

Definition statusBadge (a : Appointment) : string :=
  Badge (Some (getStatusVariant (appointment_status a))).

Definition urgencyBadge (a : Appointment) : string :=
  Badge (Some (getPriorityVariant (appointment_urgency a))).

End AppointmentsPage.

(** ** [pages/patients/index.tsx] *)
Module PatientsPage.
Import utils types api ReactQuery badge.

Record State : Type := mkState {
  searchTerm : string;
  searchType : string;
  currentPage : Z;
  perPage : Z
}.

Definition initialState : State := mkState "" "all" 1 20.

Definition queryParams (s : State) : gmap string Param :=
  <[ "search_type" := PStr (searchType s) ]>
    (<[ "search" := PStr (searchTerm s) ]>
       (<[ "per_page" := PNum (Num (perPage s)) ]>
          {[ "page" := PNum (Num (currentPage s)) ]})).

Definition queryFn (s : State)
  : Reply (PaginatedResponse Patient) -> Eff (Settled (PaginatedResponse Patient)) :=
  patientApi.getAll (queryParams s).

Definition handleSearch (term type : string) (s : State) : State :=
  mkState term type 1 (perPage s).

(** The handlers of the controls. *)
Inductive Event : Type :=
  | SearchInput (value : string)
  | SearchTypeSelect (value : string)
  | Previous
  | Next.

Definition step (s : State) (ev : Event) : State :=
  match ev with
  | SearchInput v => handleSearch v (searchType s) s
  | SearchTypeSelect v => handleSearch (searchTerm s) v s
  | Previous => mkState (searchTerm s) (searchType s) (currentPage s - 1) (perPage s)
  | Next => mkState (searchTerm s) (searchType s) (currentPage s + 1) (perPage s)
  end.

Record Pagination : Type := mkPagination {
  previousDisabled : bool;
  nextDisabled : bool
}.

Inductive View : Type :=
  | ErrorView
  | LoadingView
  | EmptyView (title : string)
  | ListView (cards : list Patient) (pagination : option Pagination).

Definition render (s : State) (r : QueryResult (PaginatedResponse Patient)) : View :=
  match error r with
  | Some _ => ErrorView
  | None =>
      if isLoading r then LoadingView
      else
        match data r with
        | Some d =>
            if (List.length (items d) =? 0)%nat then
              EmptyView (if String.eqb (searchTerm s) "" then "No patients yet"
                         else "No patients found")
            else
              ListView (items d)
                (if 1 <? pages d
                 then Some (mkPagination (negb (has_prev d)) (negb (has_next d)))
                 else None)
        | None => ListView [] None
        end
  end.

(** [PatientCard]: the badge and the formatted fields. *)
Definition activeBadge (p : Patient) : string :=
  Badge (Some (if is_active p then v_active else v_inactive)).

Definition phoneLine (p : Patient) : option string :=
  if truthy (phone_primary p) then formatPhoneNumber <$> phone_primary p else None.

End PatientsPage.

(** ** [pages/index.tsx] and [pages/patients/[id].tsx] *)
Module DashboardPage.
Import utils badge.

(** Both pages declare the same function. *)
Definition getAppointmentStatusVariant (status : string) : Variant :=
  let s := toLowerCase status in
  if String.eqb s "scheduled" then v_scheduled
  else if String.eqb s "confirmed" then v_confirmed
  else if String.eqb s "cancelled" then v_cancelled
  else if String.eqb s "completed" then v_completed
  else if String.eqb s "in_progress" || String.eqb s "checked_in" then v_in_progress
  else v_default.

End DashboardPage.

(** ** Vocabulary of the specification

    Notions the properties are stated with; none of them is used by the
    code above. *)
Module Spec.
Import JSDate utils api.

(** The local calendar date of a time value: year, month 0..11, day. *)
Definition localDate (tza t : Z) : Z * Z * Z :=
  (getFullYear tza t, getMonth tza t, getDate tza t).

(** The calendar date that follows [(y, m, d)], [l] being the leap flag
    of the year. *)
Definition nextCalendarDate (y m d l : Z) : Z * Z * Z :=
  if d <? DaysInMonth m l then (y, m, d + 1)
  else if m <? 11 then (y, m + 1, 1)
  else (y + 1, 0, 1).

(** Calendar order on dates. *)
Definition dateLe (a b : Z * Z * Z) : Prop :=
  let '(y1, m1, d1) := a in
  let '(y2, m2, d2) := b in
  y1 < y2 \/ (y1 = y2 /\ (m1 < m2 \/ (m1 = m2 /\ d1 <= d2))).

(** The [n]-th anniversary of a date. *)
Definition anniversary (n : Z) (a : Z * Z * Z) : Z * Z * Z :=
  let '(y, m, d) := a in (y + n, m, d).

(** What the request interceptor would read as the stored token. *)
Definition storedToken (env : Env) : option string :=
  window env ≫= (fun w => localStorage w !! "auth_token").

(** An error outside the classes with a fixed notification: not 401, 403,
    404, not 500 and above, not a time-out. *)
Definition isOtherError (e : AxiosError) : bool :=
  negb (statusIs e 401) && negb (statusIs e 403) && negb (statusIs e 404)
  && negb (statusAtLeast e 500) && negb (codeIs e "ECONNABORTED").

(** The status and urgency values the badge call sites know, compared
    after [toLowerCase]. *)
Definition isRecognizedStatus (status : string) : bool :=
  existsb (String.eqb (toLowerCase status))
    ["scheduled"; "confirmed"; "cancelled"; "completed"; "in_progress"; "checked_in"]%string.

Definition isRecognizedUrgency (urgency : string) : bool :=
  existsb (String.eqb (toLowerCase urgency)) ["urgent"; "high"; "medium"; "low"]%string.

(** The claim about the call sites, as the specification words it: a value
    outside the recognized set yields the default variant. *)
Definition unrecognizedValuesYieldDefault : Prop :=
  (forall status, isRecognizedStatus status = false ->
     AppointmentsPage.getStatusVariant status = badge.defaultVariant)
  /\ (forall urgency, isRecognizedUrgency urgency = false ->
     AppointmentsPage.getPriorityVariant urgency = badge.defaultVariant).

(** The named variants of the badge. *)
Definition allVariants : list badge.Variant :=
  [badge.v_default; badge.v_secondary; badge.v_destructive; badge.v_outline;
   badge.v_active; badge.v_inactive; badge.v_scheduled; badge.v_confirmed;
   badge.v_cancelled; badge.v_completed; badge.v_in_progress; badge.v_urgent;
   badge.v_high; badge.v_medium; badge.v_low; badge.v_success; badge.v_warning;
   badge.v_error; badge.v_info].

End Spec.

(** ** Regular expressions, as far as [utils.ts] uses them

    Character classes, concatenation, alternation and repetition; [test]
    decides whether the whole string matches, which is what
    [/^...$/.test(s)] does for a pattern anchored at both ends. *)
Module regexp.

Inductive Regex : Type :=
  | Void
  | Eps
  | Class (p : ascii -> bool)
  | Cat (r1 r2 : Regex)
  | Alt (r1 r2 : Regex)
  | Star (r : Regex).

(** [r+] *)
Definition Plus (r : Regex) : Regex := Cat r (Star r).

Fixpoint nullable (r : Regex) : bool :=
  match r with
  | Void => false
  | Eps => true
  | Class _ => false
  | Cat r1 r2 => nullable r1 && nullable r2
  | Alt r1 r2 => nullable r1 || nullable r2
  | Star _ => true
  end.

(** What remains to be matched after the character [c]. *)
Fixpoint deriv (c : ascii) (r : Regex) : Regex :=
  match r with
  | Void => Void
  | Eps => Void
  | Class p => if p c then Eps else Void
  | Cat r1 r2 =>
      if nullable r1 then Alt (Cat (deriv c r1) r2) (deriv c r2)
      else Cat (deriv c r1) r2
  | Alt r1 r2 => Alt (deriv c r1) (deriv c r2)
  | Star r1 => Cat (deriv c r1) (Star r1)
  end.

Fixpoint test (r : Regex) (s : string) : bool :=
  match s with
  | EmptyString => nullable r
  | String c rest => test (deriv c r) rest
  end.

(** The strings a pattern denotes. *)
Inductive Matches : Regex -> string -> Prop :=
  | m_eps : Matches Eps EmptyString
  | m_class p c : p c = true -> Matches (Class p) (String c EmptyString)
  | m_cat r1 r2 s1 s2 :
      Matches r1 s1 -> Matches r2 s2 -> Matches (Cat r1 r2) (s1 ++ s2)
  | m_alt_l r1 r2 s : Matches r1 s -> Matches (Alt r1 r2) s
  | m_alt_r r1 r2 s : Matches r2 s -> Matches (Alt r1 r2) s
  | m_star_nil r : Matches (Star r) EmptyString
  | m_star_cons r s1 s2 :
      Matches r s1 -> Matches (Star r) s2 -> Matches (Star r) (s1 ++ s2).

End regexp.

(** ** [src/lib/utils.ts], the other helpers

    Strings are ASCII, as for [utils.toLowerCase]: white space is the
    ASCII part of [\s], letters are A to Z and a to z. *)
Module helpers.
Import JSDate utils regexp.

(** [\s], and the characters [trim] removes. *)
Definition isWhiteSpace (c : ascii) : bool :=
  let n := nat_of_ascii c in
  ((n =? 32) || ((9 <=? n) && (n <=? 13)))%nat.

(** [[^\s@]] *)
Definition emailAtom (c : ascii) : bool :=
  negb (isWhiteSpace c) && negb (Ascii.eqb c "@").

(** [/^[^\s@]+@[^\s@]+\.[^\s@]+$/] *)
Definition emailRegex : Regex :=
  Cat (Plus (Class emailAtom))
    (Cat (Class (Ascii.eqb "@"))
       (Cat (Plus (Class emailAtom))
          (Cat (Class (Ascii.eqb "."))
             (Plus (Class emailAtom))))).

Definition isValidEmail (email : string) : bool := test emailRegex email.

Definition upperChar (c : ascii) : ascii :=
  let n := nat_of_ascii c in
  if ((97 <=? n) && (n <=? 122))%nat then ascii_of_nat (n - 32) else c.

Fixpoint toUpperCase (s : string) : string :=
  match s with
  | EmptyString => EmptyString
  | String c rest => String (upperChar c) (toUpperCase rest)
  end.

(** [s.charAt(0)]: the first character, or the empty string. *)
Definition charAt0 (s : string) : string :=
  match s with
  | EmptyString => EmptyString
  | String c _ => String c EmptyString
  end.

Definition capitalizeFirst (str : string) : string :=
  if String.eqb str "" then ""
  else (toUpperCase (charAt0 str) ++ toLowerCase (sliceFrom 1 str))%string.

(** [x || ""] on a string: the empty string is the only falsy one. *)
Definition getInitials (firstName lastName : string) : string :=
  let first := toUpperCase (charAt0 firstName) in
  let last := toUpperCase (charAt0 lastName) in
  (first ++ last)%string.

Definition oneOf (s : string) (l : list string) : bool := existsb (String.eqb s) l.

Definition getStatusColor (status : string) : string :=
  let statusLower := toLowerCase status in
  if oneOf statusLower ["active"; "confirmed"; "completed"; "paid"]%string
  then "bg-green-100 text-green-800"
  else if oneOf statusLower ["scheduled"; "pending"]%string
  then "bg-blue-100 text-blue-800"
  else if oneOf statusLower ["cancelled"; "inactive"; "denied"]%string
  then "bg-red-100 text-red-800"
  else if oneOf statusLower ["in_progress"; "checked_in"]%string
  then "bg-yellow-100 text-yellow-800"
  else "bg-gray-100 text-gray-800".

Definition getPriorityColor (priority : string) : string :=
  let priorityLower := toLowerCase priority in
  if oneOf priorityLower ["high"; "urgent"]%string
  then "bg-red-100 text-red-800"
  else if oneOf priorityLower ["medium"]%string
  then "bg-yellow-100 text-yellow-800"
  else if oneOf priorityLower ["low"]%string
  then "bg-green-100 text-green-800"
  else "bg-gray-100 text-gray-800".

(** [s.replace(/[<>]/g, "")] *)
Fixpoint removeAngles (s : string) : string :=
  match s with
  | EmptyString => EmptyString
  | String c rest =>
      if Ascii.eqb c "<" || Ascii.eqb c ">" then removeAngles rest
      else String c (removeAngles rest)
  end.

Fixpoint trimStart (s : string) : string :=
  match s with
  | String c rest => if isWhiteSpace c then trimStart rest else s
  | EmptyString => s
  end.

Fixpoint trimEnd (s : string) : string :=
  match s with
  | EmptyString => EmptyString
  | String c rest =>
      let rest' := trimEnd rest in
      if isWhiteSpace c && String.eqb rest' "" then "" else String c rest'
  end.

(** [s.trim()] *)
Definition trim (s : string) : string := trimEnd (trimStart s).

Definition sanitizeInput (input : string) : string :=
  if String.eqb input "" then "" else trim (removeAngles input).

(** [isToday(date)]: [d] is the time value of [new Date(date)], [None]
    when it is not a date (every getter is then [NaN] and no comparison
    holds); [now] is the clock. *)
Definition isToday (tza now : Z) (d : option Z) : bool :=
  match d with
  | None => false
  | Some t =>
      (getDate tza t =? getDate tza now)
      && (getMonth tza t =? getMonth tza now)
      && (getFullYear tza t =? getFullYear tza now)
  end.

(** [isOverdue(date)]: [d < today] on the time values. *)
Definition isOverdue (now : Z) (d : option Z) : bool :=
  match d with
  | None => false
  | Some t => t <? now
  end.

End helpers.

(** ** [pages/patients/[id].tsx]: the id of the route *)
Module PatientDetailPage.
Import types api.




End PatientDetailPage.

(** ** Vocabulary of the further properties *)
Module SpecMore.
Import utils api.


(** Every character of a string satisfies [p]. *)
Fixpoint allChars (p : ascii -> bool) (s : string) : bool :=
  match s with
  | EmptyString => true
  | String c r => p c && allChars p r
  end.

(** The number of occurrences of a character. *)
Fixpoint countChar (x : ascii) (s : string) : nat :=
  match s with
  | EmptyString => 0%nat
  | String c r => ((if Ascii.eqb c x then 1 else 0) + countChar x r)%nat
  end.

(** Neither [<] nor [>]. *)
Definition notAngle (c : ascii) : bool := negb (Ascii.eqb c "<" || Ascii.eqb c ">").

(** The number of notifications a reply gives rise to: one for a failure
    other than a 401. *)
Definition notifications {A : Type} (reply : Reply A) : nat :=
  match reply with
  | Fulfilled _ => 0%nat
  | Rejected e => if statusIs e 401 then 0%nat else 1%nat
  end.

(** The state of the patients page after a sequence of events. *)
Definition runPatientsPage (s : PatientsPage.State) (evs : list PatientsPage.Event)
  : PatientsPage.State :=
  fold_left PatientsPage.step evs s.

(** The net number of pages a sequence of events moves forward. *)
Fixpoint pageMoves (evs : list PatientsPage.Event) : Z :=
  match evs with
  | [] => 0
  | PatientsPage.Next :: rest => 1 + pageMoves rest
  | PatientsPage.Previous :: rest => -1 + pageMoves rest
  | _ :: rest => pageMoves rest
  end.

Definition isPaging (ev : PatientsPage.Event) : bool :=
  match ev with
  | PatientsPage.Next | PatientsPage.Previous => true
  | _ => false
  end.


End SpecMore.

(** ** Time zones whose offset changes (ECMA-262, "LocalTZA ( t, isUTC )")

    [JSDate] above reads the local fields with one offset [tza].  A zone
    with daylight saving has an offset that depends on the instant, and
    ECMA-262 reads it in two ways: [offsetAt z t] is the offset in force at
    the instant [t] (LocalTZA with [isUTC] true), [offsetOfLocal z t] the
    offset used to read the local time value [t] as an instant (LocalTZA
    with [isUTC] false; a local time that a change of offset skips or
    repeats is read with the offset before the change).  The getters and
    [setDate] are those of [JSDate] with the offset taken from the zone;
    [fixed tza] is the zone of [JSDate]. *)
Module JSZone.
Import JSDate.

Record Zone : Type := mkZone {
  offsetAt : Z -> Z;
  offsetOfLocal : Z -> Z
}.

Definition LocalTime (z : Zone) (t : Z) : Z := t + offsetAt z t.

Definition UTC (z : Zone) (t : Z) : Z := t - offsetOfLocal z t.

Definition getFullYear (z : Zone) (t : Z) : Z := YearFromTime (LocalTime z t).

Definition getMonth (z : Zone) (t : Z) : Z := MonthFromTime (LocalTime z t).

Definition getDate (z : Zone) (t : Z) : Z := DateFromTime (LocalTime z t).

Definition getDay (z : Zone) (t : Z) : Z := WeekDay (LocalTime z t).

(** [d.setDate(dt)] *)
Definition setDate (z : Zone) (t dt : Z) : Z :=
  let lt := LocalTime z t in
  let newDate :=
    MakeDate (MakeDay (YearFromTime lt) (MonthFromTime lt) dt) (TimeWithinDay lt) in
  UTC z newDate.

(** A zone without changes of offset. *)
Definition fixed (tza : Z) : Zone := mkZone (fun _ => tza) (fun _ => tza).

Definition msPerHour : Z := 3600000.

(** The instants at which daylight saving starts and ends in
    America/New_York in 2024: 10 March 07:00 UTC and 3 November 06:00 UTC. *)
Definition dstStart : Z := Eval vm_compute in atUTC 2024 3 10 7.

Definition dstEnd : Z := Eval vm_compute in atUTC 2024 11 3 6.

(** America/New_York during 2024: five hours behind UTC, four between
    the two instants.  On 10 March 02:00 local becomes 03:00, and the
    skipped hour is read with the offset before the change; on
    3 November 02:00 local becomes 01:00, and the repeated hour is read
    with the offset before the change as well. *)
Definition newYork2024 : Zone :=
  mkZone
    (fun t =>
       if (dstStart <=? t) && (t <? dstEnd) then -4 * msPerHour else -5 * msPerHour)
    (fun t =>
       if (dstStart - 4 * msPerHour <=? t) && (t <? dstEnd - 4 * msPerHour)
       then -4 * msPerHour else -5 * msPerHour).

End JSZone.

(** ** The date code of the pages in a zone whose offset changes

    [calculateAge], [getDateRange] and [navigateDate] as in the sources, on
    the dates of [JSZone]; at a [fixed] zone they are the functions of
    [utils] and [AppointmentsPage]. *)
Module Zoned.
Import JSDate AppointmentsPage.

(** A date of the calendar with a four-digit year, month 1..12. *)
Definition validCivil (c : CivilDate) : bool :=
  (0 <=? c_year c) && (c_year c <=? 9999)
  && (1 <=? c_month c) && (c_month c <=? 12)
  && (1 <=? c_day c) && (c_day c <=? DaysInMonth (c_month c - 1) (LeapFlag (c_year c))).

(** The argument of [calculateAge] ([string | Date]):
    - a date-only string [YYYY-MM-DD] ([isoString c]), the form of
      [patient.date_of_birth] at both call sites;
    - a [Date], or a string with a time of day, standing for the instant
      [t];
    - an empty string, or a value that is not a date. *)
Inductive DateArg : Type :=
  | DateOnly (c : CivilDate) (valid : validCivil c = true)
  | Instant (t : Z)
  | NoDate.

(** The time value of [new Date(birthDate)]: a date-only string is read
    as the start of that day in UTC (ECMA-262, "Date.parse"). *)
Definition parseDate (a : DateArg) : option Z :=
  match a with
  | DateOnly c _ => Some (MakeDate (civilDay c) 0)
  | Instant t => Some t
  | NoDate => None
  end.

Definition calculateAge (z : JSZone.Zone) (now : Z) (birthDate : DateArg) : Z :=
  match parseDate birthDate with
  | None => 0
  | Some b =>
      let age := JSZone.getFullYear z now - JSZone.getFullYear z b in
      let monthDiff := JSZone.getMonth z now - JSZone.getMonth z b in
      if (monthDiff <? 0)
         || ((monthDiff =? 0) && (JSZone.getDate z now <? JSZone.getDate z b))
      then age - 1
      else age
  end.

Definition getDateRangeDates (z : JSZone.Zone) (s : State) : Z * Z :=
  let start := selectedDate s in
  let end_ := selectedDate s in
  match viewType s with
  | view_week =>
      let day := JSZone.getDay z start in
      let diff := JSZone.getDate z start - day + (if day =? 0 then -6 else 1) in
      let start := JSZone.setDate z start diff in
      let end_ := JSZone.setDate z end_ (JSZone.getDate z start + 6) in
      (start, end_)
  | _ =>
      let end_ := JSZone.setDate z end_ (JSZone.getDate z start) in
      (start, end_)
  end.

Definition getDateRange (z : JSZone.Zone) (s : State) : DateRange :=
  let '(start, end_) := getDateRangeDates z s in
  mkRange (toISODate start) (toISODate end_).

Definition navigateDate (z : JSZone.Zone) (direction : Direction) (s : State) : State :=
  let newDate := selectedDate s in
  let newDate :=
    match viewType s with
    | view_day =>
        JSZone.setDate z newDate
          (JSZone.getDate z newDate + (match direction with next => 1 | prev => -1 end))
    | view_week =>
        JSZone.setDate z newDate
          (JSZone.getDate z newDate + (match direction with next => 7 | prev => -7 end))
    | view_list => newDate
    end in
  mkState newDate (viewType s) (statusFilter s) (providerFilter s).

End Zoned.

(** ** Vocabulary for the dates in a zone *)
Module SpecZone.
Import JSDate.

(** The number of the local calendar day of an instant. *)
Definition localDayIn (z : JSZone.Zone) (t : Z) : Z := Day (JSZone.LocalTime z t).

(** The local calendar date of an instant: year, month 0..11, day. *)
Definition localDateIn (z : JSZone.Zone) (t : Z) : Z * Z * Z :=
  (JSZone.getFullYear z t, JSZone.getMonth z t, JSZone.getDate z t).

(** The local date that follows the local date of [t]. *)
Definition nextLocalDate (z : JSZone.Zone) (t : Z) : Z * Z * Z :=
  Spec.nextCalendarDate (JSZone.getFullYear z t) (JSZone.getMonth z t)
    (JSZone.getDate z t) (InLeapYear (JSZone.LocalTime z t)).

(** The local time value [x] keeps its calendar day in the zone: the
    instant it is read as shows a local time on the day of [x].  It fails
    only where a change of offset passes over midnight. *)
Definition keepsDay (z : JSZone.Zone) (x : Z) : Prop :=
  Day (JSZone.LocalTime z (JSZone.UTC z x)) = Day x.

(** [t] falls on the birthday of [b]: same local month and day. *)
Definition isBirthdayIn (z : JSZone.Zone) (b t : Z) : bool :=
  (JSZone.getMonth z t =? JSZone.getMonth z b)
  && (JSZone.getDate z t =? JSZone.getDate z b).

(** [b] is a 29 February and [t] the 1 March of a year without one. *)
Definition isLeaplingFirstOfMarchIn (z : JSZone.Zone) (b t : Z) : bool :=
  (JSZone.getMonth z b =? 1) && (JSZone.getDate z b =? 29)
  && (JSZone.getMonth z t =? 2) && (JSZone.getDate z t =? 1)
  && (InLeapYear (JSZone.LocalTime z t) =? 0).

(** The number of days one step of the navigation moves. *)
Definition stride (v : AppointmentsPage.ViewType) (d : AppointmentsPage.Direction) : Z :=
  match v, d with
  | AppointmentsPage.view_day, AppointmentsPage.next => 1
  | AppointmentsPage.view_day, AppointmentsPage.prev => -1
  | AppointmentsPage.view_week, AppointmentsPage.next => 7
  | AppointmentsPage.view_week, AppointmentsPage.prev => -7
  | AppointmentsPage.view_list, _ => 0
  end.

End SpecZone.

(* ===================================================================== *)
(** * Properties *)
(* ===================================================================== *)

Import JSDate utils types api badge ReactQuery Spec SpecZone.

(** ** Calendar arithmetic *)
Section Calendar.

Lemma DaysInYear_cases y : DaysInYear y = 365 \/ DaysInYear y = 366.
Proof.
  unfold DaysInYear.
  repeat match goal with |- context [if ?b then _ else _] => destruct b end; auto.
Qed.

Lemma LeapFlag_cases y :
  (LeapFlag y = 0 /\ DaysInYear y = 365) \/ (LeapFlag y = 1 /\ DaysInYear y = 366).
Proof.
  unfold LeapFlag. destruct (DaysInYear_cases y) as [H|H]; rewrite H; simpl; auto.
Qed.

Lemma DayFromYear_succ y : DayFromYear (y + 1) = DayFromYear y + DaysInYear y.
Proof.
  unfold DayFromYear, DaysInYear.
  repeat match goal with
         | |- context [negb (?a =? ?b)] => destruct (Z.eqb_spec a b); simpl
         end;
  Z.div_mod_to_equations; lia.
Qed.

Lemma DayFromYear_lt y1 y2 : y1 < y2 -> DayFromYear y1 < DayFromYear y2.
Proof. unfold DayFromYear. intros H. Z.div_mod_to_equations. lia. Qed.

Lemma YearFromDay_spec d :
  DayFromYear (YearFromDay d) <= d < DayFromYear (YearFromDay d + 1).
Proof.
  unfold YearFromDay. cbv zeta.
  destruct (Z.ltb_spec d (DayFromYear (1970 + 400 * d / 146097))) as [H|H].
  - unfold DayFromYear in *. Z.div_mod_to_equations. lia.
  - destruct (Z.leb_spec (DayFromYear (1970 + 400 * d / 146097 + 1)) d) as [H1|H1].
    + unfold DayFromYear in *. Z.div_mod_to_equations. lia.
    + lia.
Qed.

Lemma YearFromDay_unique d y :
  DayFromYear y <= d < DayFromYear (y + 1) -> YearFromDay d = y.
Proof.
  intros Hy. pose proof (YearFromDay_spec d) as Hs.
  destruct (Z.lt_trichotomy (YearFromDay d) y) as [Hlt | [Heq | Hgt]]; [|assumption|].
  - assert (DayFromYear (YearFromDay d + 1) <= DayFromYear y).
    { destruct (Z.eq_dec (YearFromDay d + 1) y) as [->|]; [lia|].
      apply Z.lt_le_incl, DayFromYear_lt. lia. }
    lia.
  - assert (DayFromYear (y + 1) <= DayFromYear (YearFromDay d)).
    { destruct (Z.eq_dec (y + 1) (YearFromDay d)) as [->|]; [lia|].
      apply Z.lt_le_incl, DayFromYear_lt. lia. }
    lia.
Qed.

Lemma DayWithinYear_range t :
  0 <= DayWithinYear t < DaysInYear (YearFromTime t).
Proof.
  unfold DayWithinYear, YearFromTime.
  pose proof (YearFromDay_spec (Day t)) as H.
  rewrite DayFromYear_succ in H. lia.
Qed.

Ltac split_ifs :=
  repeat match goal with
         | |- context [if ?a <? ?b then _ else _] => destruct (Z.ltb_spec a b)
         | |- context [if ?a =? ?b then _ else _] => destruct (Z.eqb_spec a b)
         | |- context [if ?a <=? ?b then _ else _] => destruct (Z.leb_spec a b)
         end.

Lemma month_of_day_within_year w l :
  0 <= l <= 1 -> 0 <= w < 365 + l ->
  let m := MonthFromDayWithinYear w l in
  0 <= m <= 11 /\ MonthStart m l <= w < MonthStart m l + DaysInMonth m l.
Proof.
  intros Hl Hw. cbv zeta. unfold MonthFromDayWithinYear.
  split_ifs; unfold MonthStart, DaysInMonth; simpl; lia.
Qed.

Lemma month_of_day_within_year_unique w l m :
  0 <= l <= 1 -> 0 <= m <= 11 ->
  MonthStart m l <= w < MonthStart m l + DaysInMonth m l ->
  MonthFromDayWithinYear w l = m.
Proof.
  intros Hl Hm.
  assert (m = 0 \/ m = 1 \/ m = 2 \/ m = 3 \/ m = 4 \/ m = 5 \/ m = 6 \/
          m = 7 \/ m = 8 \/ m = 9 \/ m = 10 \/ m = 11) as Hcases by lia.
  unfold MonthFromDayWithinYear.
  repeat (destruct Hcases as [-> | Hcases]); [.. | subst m];
    unfold MonthStart, DaysInMonth; simpl; intros Hw; split_ifs; lia.
Qed.

Lemma InLeapYear_range t : 0 <= InLeapYear t <= 1.
Proof.
  unfold InLeapYear. destruct (LeapFlag_cases (YearFromTime t)) as [[-> _]|[-> _]]; lia.
Qed.

Lemma DayWithinYear_lt t : 0 <= DayWithinYear t < 365 + InLeapYear t.
Proof.
  pose proof (DayWithinYear_range t) as H. unfold InLeapYear.
  destruct (LeapFlag_cases (YearFromTime t)) as [[-> E]|[-> E]]; lia.
Qed.

Lemma MonthFromTime_range t : 0 <= MonthFromTime t <= 11.
Proof.
  apply (month_of_day_within_year (DayWithinYear t) (InLeapYear t));
    [apply InLeapYear_range | apply DayWithinYear_lt].
Qed.

Lemma DateFromTime_range t :
  1 <= DateFromTime t <= DaysInMonth (MonthFromTime t) (InLeapYear t).
Proof.
  pose proof (month_of_day_within_year (DayWithinYear t) (InLeapYear t)
                (InLeapYear_range t) (DayWithinYear_lt t)) as [_ H].
  unfold DateFromTime, MonthFromTime. lia.
Qed.

Lemma MakeDay_in_year y m d :
  0 <= m <= 11 -> MakeDay y m d = DayFromYear y + MonthStart m (LeapFlag y) + d - 1.
Proof.
  intros Hm. unfold MakeDay. cbv zeta.
  rewrite (Z.div_small m 12), (Z.mod_small m 12) by lia.
  rewrite Z.add_0_r. reflexivity.
Qed.

(** [MakeDay] applied to the fields of a time value gives its day back,
    shifted by the difference in the day of the month. *)
Lemma MakeDay_fields t dt :
  MakeDay (YearFromTime t) (MonthFromTime t) dt = Day t + (dt - DateFromTime t).
Proof.
  rewrite MakeDay_in_year by apply MonthFromTime_range.
  unfold DateFromTime, DayWithinYear, InLeapYear. lia.
Qed.

Lemma MonthStart_bounds m l :
  0 <= l <= 1 -> 0 <= m <= 11 ->
  0 <= MonthStart m l /\ MonthStart m l + DaysInMonth m l <= 365 + l.
Proof.
  intros Hl Hm.
  assert (m = 0 \/ m = 1 \/ m = 2 \/ m = 3 \/ m = 4 \/ m = 5 \/ m = 6 \/
          m = 7 \/ m = 8 \/ m = 9 \/ m = 10 \/ m = 11) as Hcases by lia.
  repeat (destruct Hcases as [-> | Hcases]); [.. | subst m];
    unfold MonthStart, DaysInMonth; simpl; lia.
Qed.

(** A valid calendar date is the date of every time value on its day. *)
Lemma fields_unique t y m d :
  0 <= m <= 11 -> 1 <= d <= DaysInMonth m (LeapFlag y) ->
  Day t = MakeDay y m d ->
  YearFromTime t = y /\ MonthFromTime t = m /\ DateFromTime t = d.
Proof.
  intros Hm Hd HD. rewrite MakeDay_in_year in HD by assumption.
  assert (0 <= LeapFlag y <= 1) as Hl
    by (destruct (LeapFlag_cases y) as [[-> _]|[-> _]]; lia).
  pose proof (MonthStart_bounds m (LeapFlag y) Hl Hm) as Hb.
  assert (YearFromTime t = y) as Hy.
  { unfold YearFromTime. apply YearFromDay_unique. rewrite DayFromYear_succ.
    destruct (LeapFlag_cases y) as [[E1 E2]|[E1 E2]]; rewrite E1 in *; lia. }
  assert (MonthFromTime t = m) as Hmm.
  { unfold MonthFromTime, InLeapYear, DayWithinYear. rewrite Hy.
    apply month_of_day_within_year_unique; [assumption .. | lia]. }
  repeat split; try assumption.
  unfold DateFromTime. rewrite Hmm. unfold InLeapYear, DayWithinYear. rewrite Hy. lia.
Qed.

Lemma Day_shift t k : Day (t + k * msPerDay) = Day t + k.
Proof. unfold Day, msPerDay. rewrite Z.div_add by lia. reflexivity. Qed.

Lemma TimeWithinDay_shift t k : TimeWithinDay (t + k * msPerDay) = TimeWithinDay t.
Proof. unfold TimeWithinDay, msPerDay. apply Z.mod_add. lia. Qed.

Lemma Day_TimeWithinDay t : Day t * msPerDay + TimeWithinDay t = t.
Proof.
  unfold Day, TimeWithinDay, msPerDay.
  pose proof (Z.div_mod t 86400000). lia.
Qed.



Lemma Day_LocalTime_shift tza t k :
  Day (LocalTime tza (t + k * msPerDay)) = Day (LocalTime tza t) + k.
Proof.
  unfold LocalTime. replace (t + k * msPerDay + tza) with (t + tza + k * msPerDay) by lia.
  apply Day_shift.
Qed.

Lemma Day_decompose t :
  Day t = MakeDay (YearFromTime t) (MonthFromTime t) (DateFromTime t).
Proof. rewrite MakeDay_fields. lia. Qed.

Lemma DaysInMonth_range m l : 0 <= l <= 1 -> 28 <= DaysInMonth m l <= 31.
Proof.
  intros Hl. unfold DaysInMonth.
  destruct (m =? 1); [lia|].
  destruct ((m =? 3) || (m =? 5) || (m =? 8) || (m =? 10)); lia.
Qed.

Lemma MonthStart_succ m l :
  0 <= m < 11 -> MonthStart (m + 1) l = MonthStart m l + DaysInMonth m l.
Proof.
  intros Hm.
  assert (m = 0 \/ m = 1 \/ m = 2 \/ m = 3 \/ m = 4 \/ m = 5 \/ m = 6 \/
          m = 7 \/ m = 8 \/ m = 9 \/ m = 10) as Hcases by lia.
  repeat (destruct Hcases as [-> | Hcases]); [.. | subst m];
    unfold MonthStart, DaysInMonth; simpl; lia.
Qed.


Lemma WeekDay_range t : 0 <= WeekDay t <= 6.
Proof. unfold WeekDay. pose proof (Z.mod_pos_bound (Day t + 4) 7). lia. Qed.

(** Time values on the same day have the same fields. *)
Lemma fields_of_same_day t1 t2 :
  Day t1 = Day t2 ->
  YearFromTime t1 = YearFromTime t2
  /\ MonthFromTime t1 = MonthFromTime t2
  /\ DateFromTime t1 = DateFromTime t2.
Proof.
  intros H.
  assert (YearFromTime t1 = YearFromTime t2) as Hy
    by (unfold YearFromTime; rewrite H; reflexivity).
  assert (DayWithinYear t1 = DayWithinYear t2) as Hw
    by (unfold DayWithinYear; rewrite H, Hy; reflexivity).
  assert (MonthFromTime t1 = MonthFromTime t2) as Hm
    by (unfold MonthFromTime, InLeapYear; rewrite Hw, Hy; reflexivity).
  repeat split; try assumption.
  unfold DateFromTime, InLeapYear. rewrite Hw, Hm, Hy. reflexivity.
Qed.

End Calendar.

(** ** Dates in a zone whose offset changes *)
Section ZoneCalendar.
Import AppointmentsPage.

Ltac fixed_zone :=
  unfold Zoned.calculateAge, Zoned.parseDate, Zoned.navigateDate, Zoned.getDateRangeDates,
    calculateAge, navigateDate, getDateRangeDates,
    JSZone.setDate, JSZone.getFullYear, JSZone.getMonth, JSZone.getDate, JSZone.getDay,
    setDate, getFullYear, getMonth, getDate, getDay,
    JSZone.LocalTime, JSZone.UTC, LocalTime, UTC, JSZone.fixed;
  cbn [JSZone.offsetAt JSZone.offsetOfLocal].

(** At a zone without changes the functions of [JSZone] and [Zoned] are
    those of [JSDate], [utils] and [AppointmentsPage]. *)
Lemma fixed_getters tza t :
  JSZone.getFullYear (JSZone.fixed tza) t = getFullYear tza t
  /\ JSZone.getMonth (JSZone.fixed tza) t = getMonth tza t
  /\ JSZone.getDate (JSZone.fixed tza) t = getDate tza t
  /\ JSZone.getDay (JSZone.fixed tza) t = getDay tza t.
Proof. fixed_zone. repeat split. Qed.

Lemma fixed_setDate tza t dt : JSZone.setDate (JSZone.fixed tza) t dt = setDate tza t dt.
Proof. fixed_zone. reflexivity. Qed.

Lemma fixed_navigateDate tza d s :
  Zoned.navigateDate (JSZone.fixed tza) d s = navigateDate tza d s.
Proof. fixed_zone. reflexivity. Qed.

Lemma fixed_getDateRangeDates tza s :
  Zoned.getDateRangeDates (JSZone.fixed tza) s = getDateRangeDates tza s.
Proof. fixed_zone. reflexivity. Qed.

Lemma fixed_calculateAge tza now b :
  Zoned.calculateAge (JSZone.fixed tza) now (Zoned.Instant b)
  = calculateAge tza now (Some b).
Proof. fixed_zone. reflexivity. Qed.

(** [setDate] goes to the local time a whole number of days away and
    reads it as an instant. *)
Lemma zone_setDate z t dt :
  JSZone.setDate z t dt
  = JSZone.UTC z (JSZone.LocalTime z t + (dt - JSZone.getDate z t) * msPerDay).
Proof.
  unfold JSZone.setDate, JSZone.getDate, MakeDate. cbv zeta.
  rewrite MakeDay_fields. f_equal.
  pose proof (Day_TimeWithinDay (JSZone.LocalTime z t)) as H. lia.
Qed.

Lemma zone_setDate_day z t dt :
  keepsDay z (JSZone.LocalTime z t + (dt - JSZone.getDate z t) * msPerDay) ->
  localDayIn z (JSZone.setDate z t dt) = localDayIn z t + (dt - JSZone.getDate z t).
Proof.
  unfold keepsDay, localDayIn. rewrite zone_setDate. intros ->. apply Day_shift.
Qed.

Lemma keepsDay_fixed tza x : keepsDay (JSZone.fixed tza) x.
Proof.
  unfold keepsDay, JSZone.LocalTime, JSZone.UTC, JSZone.fixed.
  cbn [JSZone.offsetAt JSZone.offsetOfLocal]. f_equal. lia.
Qed.

Lemma keepsDay_newYork2024 x : keepsDay JSZone.newYork2024 x.
Proof.
  unfold keepsDay, JSZone.LocalTime, JSZone.UTC, JSZone.newYork2024.
  cbn [JSZone.offsetAt JSZone.offsetOfLocal].
  unfold JSZone.dstStart, JSZone.dstEnd, JSZone.msPerHour, Day, msPerDay.
  destruct (Z.leb_spec (1710054000000 - 4 * 3600000) x);
    destruct (Z.ltb_spec x (1730613600000 - 4 * 3600000)); cbn [andb];
  match goal with
  | |- context [(?a <=? ?b) && (?c <? ?d)] =>
      destruct (Z.leb_spec a b); destruct (Z.ltb_spec c d); cbn [andb]
  end;
  try (f_equal; lia); try lia; Z.div_mod_to_equations; lia.
Qed.


(** Instants on the same local day show the same local date and day of
    the week. *)
Lemma localDateIn_of_day z t1 t2 :
  localDayIn z t1 = localDayIn z t2 ->
  localDateIn z t1 = localDateIn z t2 /\ JSZone.getDay z t1 = JSZone.getDay z t2.
Proof.
  unfold localDayIn, localDateIn, JSZone.getFullYear, JSZone.getMonth, JSZone.getDate,
    JSZone.getDay, WeekDay.
  intros H. destruct (fields_of_same_day _ _ H) as (-> & -> & ->).
  rewrite H. split; reflexivity.
Qed.


Lemma getDay_of_day z t t' j :
  localDayIn z t' = localDayIn z t + j -> JSZone.getDay z t' = (JSZone.getDay z t + j) mod 7.
Proof.
  unfold localDayIn, JSZone.getDay, WeekDay. intros ->.
  rewrite Z.add_mod_idemp_l by lia. f_equal. lia.
Qed.

(** One step of the navigation: [stride] local calendar days. *)
Lemma navigateDate_local_day z d t v sf pf :
  v <> view_list ->
  keepsDay z (JSZone.LocalTime z t + stride v d * msPerDay) ->
  localDayIn z (selectedDate (Zoned.navigateDate z d (mkState t v sf pf)))
  = localDayIn z t + stride v d.
Proof.
  intros Hv Hk. unfold Zoned.navigateDate. cbn [selectedDate viewType].
  destruct v, d; try congruence; cbn [stride] in *;
    rewrite zone_setDate_day;
    match goal with
    | |- keepsDay _ _ =>
        match type of Hk with
        | keepsDay _ ?x => match goal with |- keepsDay _ ?y => replace y with x by lia end
        end; exact Hk
    | |- _ => lia
    end.
Qed.

End ZoneCalendar.

(** ** The appointments page: date navigation and date range *)
Section AppointmentDates.
Import AppointmentsPage.



Example navigateDate_over_a_change_of_offset :
  let s := mkState 1710030600000 view_day "all" "all" in
  localDateIn JSZone.newYork2024 (selectedDate s) = (2024, 2, 9)
  /\ selectedDate (Zoned.navigateDate JSZone.newYork2024 next s)
     = 1710030600000 + 23 * JSZone.msPerHour
  /\ localDateIn JSZone.newYork2024
       (selectedDate (Zoned.navigateDate JSZone.newYork2024 next s)) = (2024, 2, 10)
  /\ toISODate (selectedDate (Zoned.navigateDate JSZone.newYork2024 next s))
     = "2024-03-10"%string
  /\ toISODate (selectedDate
       (Zoned.navigateDate (JSZone.fixed 0) next
          (mkState (atUTC 2023 12 31 9) view_day "all" "all"))) = "2024-01-01"%string
  /\ toISODate (selectedDate
       (Zoned.navigateDate (JSZone.fixed 0) prev
          (mkState (atUTC 2024 3 2 9) view_week "all" "all"))) = "2024-02-24"%string.
Proof. cbv zeta. repeat split; vm_compute; reflexivity. Qed.


(** C1. Week view, selected date Wednesday 1 May 2024 (12:00 UTC, local
    time UTC): [start] is Monday 29 April, and [end], computed as day
    [29 + 6] of May, is 4 June: 36 days after [start] instead of 6. *)
Theorem getDateRange_week_across_months :
  let s := mkState (atUTC 2024 5 1 12) view_week "all" "all" in
  getDay 0 (selectedDate s) = 3
  /\ getDateRange 0 s = mkRange "2024-04-29" "2024-06-04"
  /\ Day (snd (getDateRangeDates 0 s)) - Day (fst (getDateRangeDates 0 s)) = 36.
Proof. cbv zeta. repeat split; vm_compute; reflexivity. Qed.

(** The week is aligned in local time and printed in UTC: five hours west
    of Greenwich, Sunday 12 May 2024 at 21:00 is already 13 May in UTC, and
    the Monday before it, 6 May at 21:00, prints as 7 May. *)
Example getDateRange_local_week_printed_in_utc :
  let s := mkState (atUTC 2024 5 13 2) view_week "all" "all" in
  getDay (-18000000) (selectedDate s) = 0
  /\ dateStr s = "2024-05-13"%string
  /\ getDateRange (-18000000) s = mkRange "2024-05-07" "2024-05-13".
Proof. cbv zeta. repeat split; vm_compute; reflexivity. Qed.

End AppointmentDates.

(** ** [calculateAge] *)
Section Age.

Ltac bool_cases :=
  repeat match goal with
         | |- context [?a <? ?b] => destruct (Z.ltb_spec a b)
         | |- context [?a =? ?b] => destruct (Z.eqb_spec a b)
         end; simpl.

(** The age is the number of anniversaries of the birth date that are not
    after today: the full years elapsed. *)
Lemma calculateAge_full_years tza now b n :
  dateLe (anniversary n (localDate tza b)) (localDate tza now)
  <-> n <= calculateAge tza now (Some b).
Proof.
  unfold dateLe, anniversary, localDate, calculateAge.
  bool_cases; lia.
Qed.

Lemma DaysInMonth_leap m l l' :
  0 <= l <= 1 -> 0 <= l' <= 1 ->
  DaysInMonth m l' <= DaysInMonth m l
  \/ (m = 1 /\ l = 0 /\ l' = 1 /\ DaysInMonth m l = 28 /\ DaysInMonth m l' = 29).
Proof.
  intros Hl Hl'. unfold DaysInMonth.
  destruct (Z.eqb_spec m 1); [lia|].
  destruct ((m =? 3) || (m =? 5) || (m =? 8) || (m =? 10)); lia.
Qed.

Lemma DaysInMonth_feb m l : m = 1 -> DaysInMonth m l = 28 + l.
Proof. intros ->. reflexivity. Qed.

(** The arithmetic of one step of the calendar, on plain fields. *)
Lemma age_flag_next (Y M D l Yb Mb Db lb Y' M' D' l' : Z) :
  0 <= l <= 1 -> 0 <= lb <= 1 ->
  0 <= M <= 11 -> 1 <= D <= DaysInMonth M l ->
  0 <= Mb <= 11 -> 1 <= Db <= DaysInMonth Mb lb ->
  (Y', M', D') = nextCalendarDate Y M D l ->
  (Y' = Y -> l' = l) ->
  (if (M' - Mb <? 0) || ((M' - Mb =? 0) && (D' <? Db)) then Y' - Yb - 1 else Y' - Yb)
  = (if (M - Mb <? 0) || ((M - Mb =? 0) && (D <? Db)) then Y - Yb - 1 else Y - Yb)
    + (if (M' =? Mb) && (D' =? Db)
          || (Mb =? 1) && (Db =? 29) && (M' =? 2) && (D' =? 1) && (l' =? 0)
       then 1 else 0).
Proof.
  intros Hl Hlb Hm Hd Hmb Hdb Hn Hl'.
  pose proof (DaysInMonth_leap M l lb Hl Hlb) as Hleap.
  pose proof (DaysInMonth_feb M l) as Hfeb.
  pose proof (DaysInMonth_range M l Hl) as Hr.
  pose proof (DaysInMonth_range Mb lb Hlb) as Hrb.
  assert (Mb = M -> DaysInMonth Mb lb = DaysInMonth M lb) as Hsame
    by (intros ->; reflexivity).
  unfold nextCalendarDate in Hn.
  remember (DaysInMonth M l) as dim eqn:Edim.
  remember (DaysInMonth Mb lb) as dimb eqn:Edimb.
  remember (DaysInMonth M lb) as dimx eqn:Edimx.
  clear Edim Edimb Edimx.
  destruct (Z.ltb_spec D dim); [| destruct (Z.ltb_spec M 11)];
    injection Hn as -> -> ->; bool_cases; lia.
Qed.

(** The age is the number of anniversaries of the local date of birth
    that are not after the local date of the clock. *)
Lemma zoned_calculateAge_full_years z now birthDate b n :
  Zoned.parseDate birthDate = Some b ->
  dateLe (anniversary n (localDateIn z b)) (localDateIn z now)
  <-> n <= Zoned.calculateAge z now birthDate.
Proof.
  intros Hb. unfold Zoned.calculateAge. rewrite Hb.
  unfold dateLe, anniversary, localDateIn. bool_cases; lia.
Qed.

(** The same local date one year later: one year older. *)
Lemma zoned_calculateAge_year_later z now now' birthDate b :
  Zoned.parseDate birthDate = Some b ->
  localDateIn z now' = anniversary 1 (localDateIn z now) ->
  Zoned.calculateAge z now' birthDate = Zoned.calculateAge z now birthDate + 1.
Proof.
  intros Hb. unfold Zoned.calculateAge. rewrite Hb.
  unfold anniversary, localDateIn. intros H.
  injection H as -> -> ->. bool_cases; lia.
Qed.

(** From one local day to the next the age grows by one on the birthday
    and is unchanged otherwise. *)
Lemma zoned_calculateAge_next_day z now now' birthDate b :
  Zoned.parseDate birthDate = Some b ->
  localDateIn z now' = nextLocalDate z now ->
  Zoned.calculateAge z now' birthDate
  = Zoned.calculateAge z now birthDate
    + (if isBirthdayIn z b now' || isLeaplingFirstOfMarchIn z b now' then 1 else 0).
Proof.
  intros Hb Hn. unfold Zoned.calculateAge. rewrite Hb.
  unfold isBirthdayIn, isLeaplingFirstOfMarchIn.
  apply (age_flag_next _ _ _ (InLeapYear (JSZone.LocalTime z now)) _ _ _
           (InLeapYear (JSZone.LocalTime z b))).
  - apply InLeapYear_range.
  - apply InLeapYear_range.
  - apply MonthFromTime_range.
  - apply DateFromTime_range.
  - apply MonthFromTime_range.
  - apply DateFromTime_range.
  - exact Hn.
  - unfold InLeapYear, JSZone.getFullYear. intros ->. reflexivity.
Qed.

Lemma validCivil_spec c :
  Zoned.validCivil c = true ->
  0 <= c_month c - 1 <= 11
  /\ 1 <= c_day c <= DaysInMonth (c_month c - 1) (LeapFlag (c_year c)).
Proof.
  unfold Zoned.validCivil. rewrite !andb_true_iff, !Z.leb_le. lia.
Qed.

(** A date-only string is read as the start of its day in UTC: where the
    zone is at or east of Greenwich at that instant, the local date of
    the value read is the date written. *)
Lemma parseDate_date_only_east z c valid b :
  Zoned.parseDate (Zoned.DateOnly c valid) = Some b ->
  0 <= JSZone.offsetAt z b < msPerDay ->
  localDateIn z b = (c_year c, c_month c - 1, c_day c).
Proof.
  cbn [Zoned.parseDate]. intros [= <-] Ho.
  destruct (validCivil_spec c valid) as [Hm Hd].
  unfold localDateIn, JSZone.getFullYear, JSZone.getMonth, JSZone.getDate.
  destruct (fields_unique (JSZone.LocalTime z (MakeDate (civilDay c) 0))
              (c_year c) (c_month c - 1) (c_day c) Hm Hd) as (-> & -> & ->);
    [| reflexivity].
  unfold JSZone.LocalTime, MakeDate, civilDay, Day in *.
  set (D := MakeDay (c_year c) (c_month c - 1) (c_day c)) in *.
  set (o := JSZone.offsetAt z (D * msPerDay + 0)) in *.
  unfold msPerDay in *. Z.div_mod_to_equations. lia.
Qed.

(** West of Greenwich it is the day before. *)
Lemma parseDate_date_only_west z c valid b :
  Zoned.parseDate (Zoned.DateOnly c valid) = Some b ->
  - msPerDay <= JSZone.offsetAt z b < 0 ->
  localDayIn z b = civilDay c - 1.
Proof.
  cbn [Zoned.parseDate]. intros [= <-] Ho.
  unfold localDayIn, JSZone.LocalTime, MakeDate, Day in *.
  set (D := civilDay c) in *.
  set (o := JSZone.offsetAt z (D * msPerDay + 0)) in *.
  unfold msPerDay in *. Z.div_mod_to_equations. lia.
Qed.

(** C3, as the code has it.  [calculateAge] is a function of the clock,
    the time zone and its argument, so two calls at the same instant
    agree.  Its value is the number of full years elapsed since the local
    date of the value [new Date(birthDate)]: the number of anniversaries
    of that date that are not after today.  The same local date one year
    later gives one more; from one local day to the next the value grows
    by one exactly on the birthday (for a birth on 29 February: on 1 March
    in a year without one) and is unchanged on every other day.  For a
    date-only string the local date of the value read is the date written
    where the zone is at or east of Greenwich. *)
Theorem calculateAge_full_years_and_birthday
    (z : JSZone.Zone) (now : Z) (birthDate : Zoned.DateArg) (b : Z) :
  Zoned.parseDate birthDate = Some b ->
  (forall n,
      dateLe (anniversary n (localDateIn z b)) (localDateIn z now)
      <-> n <= Zoned.calculateAge z now birthDate)
  /\ (forall now',
      localDateIn z now' = anniversary 1 (localDateIn z now) ->
      Zoned.calculateAge z now' birthDate = Zoned.calculateAge z now birthDate + 1)
  /\ (forall now',
      localDateIn z now' = nextLocalDate z now ->
      Zoned.calculateAge z now' birthDate
      = Zoned.calculateAge z now birthDate
        + (if isBirthdayIn z b now' || isLeaplingFirstOfMarchIn z b now' then 1 else 0))
  /\ (forall c valid,
      birthDate = Zoned.DateOnly c valid ->
      0 <= JSZone.offsetAt z b < msPerDay ->
      localDateIn z b = (c_year c, c_month c - 1, c_day c)).
Proof.
  intros Hb. split; [| split; [| split]].
  - intros n. apply zoned_calculateAge_full_years. exact Hb.
  - intros now'. apply (zoned_calculateAge_year_later z now now' birthDate b Hb).
  - intros now'. apply zoned_calculateAge_next_day. exact Hb.
  - intros c valid E. subst birthDate. apply (parseDate_date_only_east z c valid b Hb).
Qed.

(** Born 15 June 2000 (the string "2000-06-15"), one hour east of
    Greenwich: seen on 15 June 2024 and one year later. *)
Lemma calculateAge_full_years_and_birthday_witness :
  let z := JSZone.fixed 3600000 in
  let d := Zoned.DateOnly (mkCivil 2000 6 15) eq_refl in
  Zoned.parseDate d = Some (atUTC 2000 6 15 0)
  /\ localDateIn z (atUTC 2025 6 15 8) = anniversary 1 (localDateIn z (atUTC 2024 6 15 8))
  /\ Zoned.calculateAge z (atUTC 2025 6 15 8) d
     = Zoned.calculateAge z (atUTC 2024 6 15 8) d + 1.
Proof.
  cbv zeta.
  assert (Zoned.parseDate (Zoned.DateOnly (mkCivil 2000 6 15) eq_refl)
          = Some (atUTC 2000 6 15 0)) as Hb by reflexivity.
  assert (localDateIn (JSZone.fixed 3600000) (atUTC 2025 6 15 8)
          = anniversary 1 (localDateIn (JSZone.fixed 3600000) (atUTC 2024 6 15 8))) as Hy
    by (vm_compute; reflexivity).
  split; [exact Hb | split; [exact Hy |]].
  apply (proj1 (proj2 (calculateAge_full_years_and_birthday
                         (JSZone.fixed 3600000) (atUTC 2024 6 15 8)
                         (Zoned.DateOnly (mkCivil 2000 6 15) eq_refl)
                         (atUTC 2000 6 15 0) Hb))).
  exact Hy.
Defined.

(** C3, as stated: on the birthday the value would go down by one.  Born
    15 June 2000, in UTC: the value is 23 on 14 June 2024 and 24 on
    15 June. *)
Lemma calculateAge_birthday_does_not_decrement :
  ~ (forall z now now' birthDate b,
        Zoned.parseDate birthDate = Some b ->
        localDateIn z now' = nextLocalDate z now ->
        isBirthdayIn z b now' = true ->
        Zoned.calculateAge z now' birthDate = Zoned.calculateAge z now birthDate - 1).
Proof.
  intros H.
  specialize (H (JSZone.fixed 0) (atUTC 2024 6 14 12) (atUTC 2024 6 15 12)
                (Zoned.DateOnly (mkCivil 2000 6 15) eq_refl) (atUTC 2000 6 15 0)
                eq_refl).
  vm_compute in H. specialize (H eq_refl eq_refl). discriminate H.
Qed.

(** The date-only string of both call sites west of Greenwich.  Five
    hours behind UTC, "2000-06-15" is read as 14 June 2000, 19:00, so the
    age turns 24 on 14 June 2024, one day before the birthday; for a
    [Date] on 15 June 2000 in local time it turns on the 15th. *)
Example calculateAge_date_only_west_of_greenwich :
  let z := JSZone.fixed (-5 * JSZone.msPerHour) in
  let d := Zoned.DateOnly (mkCivil 2000 6 15) eq_refl in
  localDateIn z (atUTC 2000 6 15 0) = (2000, 5, 14)
  /\ localDateIn z (atUTC 2024 6 13 16) = (2024, 5, 13)
  /\ Zoned.calculateAge z (atUTC 2024 6 13 16) d = 23
  /\ localDateIn z (atUTC 2024 6 14 16) = (2024, 5, 14)
  /\ Zoned.calculateAge z (atUTC 2024 6 14 16) d = 24
  /\ Zoned.calculateAge z (atUTC 2024 6 14 16) (Zoned.Instant (atUTC 2000 6 15 16)) = 23
  /\ Zoned.calculateAge z (atUTC 2024 6 15 16) (Zoned.Instant (atUTC 2000 6 15 16)) = 24
  /\ Zoned.calculateAge z (atUTC 2024 6 15 16) Zoned.NoDate = 0.
Proof. cbv zeta. repeat split; vm_compute; reflexivity. Qed.

Example calculateAge_examples :
  calculateAge 0 (atUTC 2024 6 14 12) (Some (atUTC 2000 6 15 0)) = 23
  /\ calculateAge 0 (atUTC 2024 6 15 12) (Some (atUTC 2000 6 15 0)) = 24
  /\ calculateAge 0 (atUTC 2023 2 28 12) (Some (atUTC 2000 2 29 0)) = 22
  /\ calculateAge 0 (atUTC 2023 3 1 12) (Some (atUTC 2000 2 29 0)) = 23
  /\ calculateAge 0 (atUTC 2024 6 15 12) None = 0.
Proof. repeat split; vm_compute; reflexivity. Qed.

End Age.

(** ** [formatPhoneNumber] *)
Section Phone.

Local Open Scope string_scope.

Lemma stripNonDigits_all_digits s c rest :
  stripNonDigits s = String c rest ->
  isDigit c = true /\ exists s', stripNonDigits s' = rest.
Proof.
  induction s as [|a s IH]; simpl; [discriminate|].
  destruct (isDigit a) eqn:Ea.
  - intros [= E1 E2]. subst c. split; [assumption | eauto].
  - assumption.
Qed.

Lemma stripNonDigits_empty_input s : s = "" -> stripNonDigits s = "".
Proof. intros ->. reflexivity. Qed.

(** Ten digits, spelled out. *)
Lemma ten_digits s :
  String.length (stripNonDigits s) = 10%nat ->
  exists c0 c1 c2 c3 c4 c5 c6 c7 c8 c9,
    stripNonDigits s
    = String c0 (String c1 (String c2 (String c3 (String c4 (String c5
        (String c6 (String c7 (String c8 (String c9 "")))))))))
    /\ Forall (fun c => isDigit c = true) [c0; c1; c2; c3; c4; c5; c6; c7; c8; c9].
Proof.
  intros Hlen.
  destruct (stripNonDigits s) as [|c0 r0] eqn:E0; [discriminate|].
  apply stripNonDigits_all_digits in E0 as [D0 [s1 E1]].
  destruct r0 as [|c1 r1]; [discriminate|].
  apply stripNonDigits_all_digits in E1 as [D1 [s2 E2]].
  destruct r1 as [|c2 r2]; [discriminate|].
  apply stripNonDigits_all_digits in E2 as [D2 [s3 E3]].
  destruct r2 as [|c3 r3]; [discriminate|].
  apply stripNonDigits_all_digits in E3 as [D3 [s4 E4]].
  destruct r3 as [|c4 r4]; [discriminate|].
  apply stripNonDigits_all_digits in E4 as [D4 [s5 E5]].
  destruct r4 as [|c5 r5]; [discriminate|].
  apply stripNonDigits_all_digits in E5 as [D5 [s6 E6]].
  destruct r5 as [|c6 r6]; [discriminate|].
  apply stripNonDigits_all_digits in E6 as [D6 [s7 E7]].
  destruct r6 as [|c7 r7]; [discriminate|].
  apply stripNonDigits_all_digits in E7 as [D7 [s8 E8]].
  destruct r7 as [|c8 r8]; [discriminate|].
  apply stripNonDigits_all_digits in E8 as [D8 [s9 E9]].
  destruct r8 as [|c9 r9]; [discriminate|].
  apply stripNonDigits_all_digits in E9 as [D9 _].
  destruct r9; [|discriminate].
  exists c0, c1, c2, c3, c4, c5, c6, c7, c8, c9. split; [reflexivity|].
  repeat constructor; assumption.
Qed.

Lemma formatPhoneNumber_nonempty phone :
  phone <> "" ->
  formatPhoneNumber phone
  = if (String.length (stripNonDigits phone) =? 10)%nat
    then "(" ++ slice 0 3 (stripNonDigits phone) ++ ") "
         ++ slice 3 6 (stripNonDigits phone) ++ "-" ++ sliceFrom 6 (stripNonDigits phone)
    else phone.
Proof.
  intros Hne. unfold formatPhoneNumber.
  destruct (String.eqb_spec phone ""); [contradiction | reflexivity].
Qed.

(** C4. With exactly ten digits in the input the result is
    [(XXX) XXX-XXXX] made of these digits, in order; the digits of the
    result are the digits of the input, and formatting the result again
    changes nothing.  With any other number of digits the input is
    returned as it is. *)
Theorem formatPhoneNumber_ten_digits_or_unchanged (phone : string) :
  (String.length (stripNonDigits phone) = 10%nat ->
   exists c0 c1 c2 c3 c4 c5 c6 c7 c8 c9,
     stripNonDigits phone
     = String c0 (String c1 (String c2 (String c3 (String c4 (String c5
         (String c6 (String c7 (String c8 (String c9 "")))))))))
     /\ formatPhoneNumber phone
        = String "(" (String c0 (String c1 (String c2 (String ")" (String " "
            (String c3 (String c4 (String c5 (String "-"
              (String c6 (String c7 (String c8 (String c9 "")))))))))))))
     /\ stripNonDigits (formatPhoneNumber phone) = stripNonDigits phone
     /\ formatPhoneNumber (formatPhoneNumber phone) = formatPhoneNumber phone)
  /\ (String.length (stripNonDigits phone) <> 10%nat ->
      formatPhoneNumber phone = phone).
Proof.
  split.
  - intros Hlen.
    destruct (ten_digits phone Hlen)
      as (c0 & c1 & c2 & c3 & c4 & c5 & c6 & c7 & c8 & c9 & E & HD).
    exists c0, c1, c2, c3, c4, c5, c6, c7, c8, c9.
    assert (phone <> "") as Hne by (intros ->; discriminate Hlen).
    assert (formatPhoneNumber phone
            = String "(" (String c0 (String c1 (String c2 (String ")" (String " "
                (String c3 (String c4 (String c5 (String "-"
                  (String c6 (String c7 (String c8 (String c9 ""))))))))))))))
      as Hf.
    { rewrite formatPhoneNumber_nonempty by assumption. rewrite E. reflexivity. }
    assert (stripNonDigits (formatPhoneNumber phone) = stripNonDigits phone) as Hs.
    { rewrite Hf, E.
      repeat match goal with
             | H : Forall _ (_ :: _) |- _ => inversion H; subst; clear H
             end.
      simpl.
      repeat match goal with
             | H : isDigit ?c = true |- _ => rewrite H; clear H
             end.
      reflexivity. }
    repeat split; try assumption.
    rewrite (formatPhoneNumber_nonempty (formatPhoneNumber phone))
      by (rewrite Hf; discriminate).
    rewrite Hs, E. simpl. symmetry. exact Hf.
  - intros Hlen. unfold formatPhoneNumber.
    destruct (String.eqb_spec phone "") as [->|Hne]; [reflexivity|].
    destruct (Nat.eqb_spec (String.length (stripNonDigits phone)) 10);
      [contradiction | reflexivity].
Qed.

Lemma formatPhoneNumber_ten_digits_or_unchanged_witness :
  String.length (stripNonDigits "555.123.4567") = 10%nat
  /\ formatPhoneNumber (formatPhoneNumber "555.123.4567")
     = formatPhoneNumber "555.123.4567"
  /\ String.length (stripNonDigits "123-4567") <> 10%nat
  /\ formatPhoneNumber "123-4567" = "123-4567".
Proof.
  split; [reflexivity | split; [| split]].
  - destruct (proj1 (formatPhoneNumber_ten_digits_or_unchanged "555.123.4567") eq_refl)
      as (c0 & c1 & c2 & c3 & c4 & c5 & c6 & c7 & c8 & c9 & _ & _ & _ & Hi).
    exact Hi.
  - vm_compute. discriminate.
  - apply (proj2 (formatPhoneNumber_ten_digits_or_unchanged "123-4567")).
    vm_compute. discriminate.
Defined.

Example formatPhoneNumber_examples :
  formatPhoneNumber "555.123.4567" = "(555) 123-4567"
  /\ formatPhoneNumber "(555) 123-4567" = "(555) 123-4567"
  /\ formatPhoneNumber "+1 555 123 4567" = "+1 555 123 4567"
  /\ formatPhoneNumber "" = "".
Proof. repeat split. Qed.

End Phone.

(** ** The response interceptor *)
Section Interceptor.

Local Open Scope string_scope.

Lemma statusIs_true e n : statusIs e n = true <-> error_status e = Some n.
Proof.
  unfold statusIs. destruct (error_status e) as [s|]; [|split; discriminate].
  destruct (Z.eqb_spec s n); split; congruence.
Qed.

Lemma statusIs_false e n : statusIs e n = false <-> error_status e <> Some n.
Proof.
  rewrite <- statusIs_true. destruct (statusIs e n); split; congruence.
Qed.

Lemma responseRejected_401 (A : Type) e env :
  error_status e = Some 401 ->
  responseRejected (A := A) e env
  = (match window env with
     | Some w =>
         mkEnv (Some (mkBrowser (delete "auth_token" (localStorage w)) "/login"))
               (toasts env)
     | None => env
     end, Rejected e).
Proof.
  intros H. apply statusIs_true in H. unfold responseRejected. rewrite H. reflexivity.
Qed.

(** C2. A call of any method, to any path, with any parameters, whose
    reply is a 401: the interceptor removes [auth_token] from
    [localStorage] and sets the location to [/login] (in a browser; there
    is neither storage nor location on the server), raises no
    notification, and the call is rejected with the same error. *)
Theorem unauthorized_clears_token_and_redirects
    (A : Type) (m : Method) (url : string) (params : gmap string Param)
    (e : AxiosError) (env : Env) :
  error_status e = Some 401 ->
  snd (request (A := A) m url params (Rejected e) env) = Rejected e
  /\ storedToken (fst (request (A := A) m url params (Rejected e) env)) = None
  /\ toasts (fst (request (A := A) m url params (Rejected e) env)) = toasts env
  /\ (forall w, window env = Some w ->
        window (fst (request (A := A) m url params (Rejected e) env))
        = Some (mkBrowser (delete "auth_token" (localStorage w)) "/login"))
  /\ (window env = None ->
        window (fst (request (A := A) m url params (Rejected e) env)) = None).
Proof.
  intros H. unfold request. rewrite (responseRejected_401 A e env H). simpl.
  unfold storedToken.
  destruct (window env) as [w|] eqn:Ew; simpl; repeat split; try congruence.
  - apply lookup_delete_eq.
  - rewrite Ew. reflexivity.
Qed.

(** A 401 on [POST /api/v1/appointments/7/check-in] with a token stored. *)
Lemma unauthorized_clears_token_and_redirects_witness :
  let e := mkAxiosError (Some (mkErrorResponse 401 (mkErrorBody None)))
             (Some "ERR_BAD_REQUEST") "Request failed with status code 401" in
  let env := mkEnv (Some (mkBrowser {[ "auth_token" := "secret" ]} "/appointments")) [] in
  error_status e = Some 401
  /\ storedToken env = Some "secret"
  /\ storedToken (fst (appointmentApi.checkIn 7 (Rejected e) env)) = None.
Proof.
  cbv zeta. split; [reflexivity | split; [reflexivity |]].
  apply (unauthorized_clears_token_and_redirects Appointment POST
           ("/api/v1/appointments/" ++ pretty 7 ++ "/check-in") ∅).
  reflexivity.
Defined.

(** C5.  An error whose status is not 401 raises exactly one
    notification, leaves the browser untouched, and is rejected to the
    caller.  The text is fixed for 403, for 404, for a status of the 5xx
    range (and for any status above it, which is no status of HTTP), and
    for a time-out.  For every other error it is the [error] field of the
    reply, verbatim, when the backend provided one, and else the message
    of the error itself.  An [AxiosError] always carries a message
    ("Request failed with status code 400", "Network Error"), which is
    the hypothesis on [message e]. *)
Theorem rejected_notifies_and_propagates (A : Type) (e : AxiosError) (env : Env) :
  error_status e <> Some 401 ->
  message e <> "" ->
  exists msg,
    responseRejected (A := A) e env = (toast_error msg env, Rejected e)
    /\ (error_status e = Some 403 -> msg = "Access forbidden")
    /\ (error_status e = Some 404 -> msg = "Resource not found")
    /\ (forall s, error_status e = Some s -> 500 <= s ->
          msg = "Server error. Please try again later.")
    /\ (statusIs e 403 = false -> statusIs e 404 = false ->
        statusAtLeast e 500 = false -> code e = Some "ECONNABORTED" ->
          msg = "Request timeout. Please try again.")
    /\ (isOtherError e = true ->
          (forall m, error_data_error e = Some m -> m <> "" -> msg = m)
          /\ (truthy (error_data_error e) = false -> msg = message e)
          /\ (error_data_error e = Some msg \/ msg = message e)).
Proof.
  intros H401 Hmsg. apply statusIs_false in H401.
  unfold responseRejected. rewrite H401.
  destruct (statusIs e 403) eqn:E403.
  { eexists; split; [reflexivity|]. apply statusIs_true in E403.
    unfold isOtherError. rewrite H401, (proj2 (statusIs_true e 403) E403).
    repeat split; try congruence; try discriminate.
    intros s Hs Hge. rewrite E403 in Hs. injection Hs as <-. lia. }
  destruct (statusIs e 404) eqn:E404.
  { eexists; split; [reflexivity|]. apply statusIs_true in E404.
    unfold isOtherError. rewrite H401, E403, (proj2 (statusIs_true e 404) E404).
    repeat split; try congruence; try discriminate.
    intros s Hs Hge. rewrite E404 in Hs. injection Hs as <-. lia. }
  apply statusIs_false in E403. apply statusIs_false in E404.
  destruct (statusAtLeast e 500) eqn:E500.
  { eexists; split; [reflexivity|].
    unfold isOtherError. rewrite E500, !andb_false_r.
    repeat split; try congruence; try discriminate. }
  assert (forall s, error_status e = Some s -> 500 <= s -> False) as Hlow.
  { intros s Hs Hge. unfold statusAtLeast in E500. rewrite Hs in E500.
    destruct (Z.leb_spec 500 s); [discriminate | lia]. }
  destruct (codeIs e "ECONNABORTED") eqn:Ecode.
  { eexists; split; [reflexivity|].
    unfold isOtherError. rewrite Ecode, !andb_false_r.
    repeat split; try congruence; try discriminate.
    intros s Hs Hge. destruct (Hlow s Hs Hge). }
  assert (jsOr (Some (message e)) "An error occurred" = message e) as Eown.
  { unfold jsOr, truthy. destruct (String.eqb_spec (message e) ""); [contradiction | reflexivity]. }
  eexists; split; [reflexivity|]. rewrite Eown.
  split; [congruence|]. split; [congruence|].
  split; [intros s Hs Hge; destruct (Hlow s Hs Hge)|].
  split.
  { intros _ _ _ Hc. unfold codeIs in Ecode. rewrite Hc in Ecode.
    rewrite String.eqb_refl in Ecode. discriminate. }
  intros _. split; [| split].
  - intros m Hm Hne. unfold jsOr, truthy. rewrite Hm. simpl.
    destruct (String.eqb_spec m ""); [contradiction | reflexivity].
  - intros Hf. unfold jsOr. rewrite Hf. reflexivity.
  - unfold jsOr. destruct (truthy (error_data_error e)) eqn:Et; [left | right; reflexivity].
    destruct (error_data_error e) as [m|]; [reflexivity | discriminate Et].
Qed.

(** A 422 with a message from the backend. *)
Lemma rejected_notifies_and_propagates_witness :
  let e := mkAxiosError (Some (mkErrorResponse 422 (mkErrorBody (Some "Invalid date"))))
             (Some "ERR_BAD_REQUEST") "Request failed with status code 422" in
  error_status e <> Some 401
  /\ message e <> ""
  /\ exists msg,
       responseRejected (A := unit) e (mkEnv None []) = (mkEnv None [msg], Rejected e).
Proof.
  cbv zeta. split; [discriminate | split; [discriminate |]].
  destruct (rejected_notifies_and_propagates unit
              (mkAxiosError (Some (mkErrorResponse 422 (mkErrorBody (Some "Invalid date"))))
                 (Some "ERR_BAD_REQUEST") "Request failed with status code 422")
              (mkEnv None []) ltac:(discriminate) ltac:(discriminate)) as (msg & Hm & _).
  exists msg. exact Hm.
Defined.

Example responseRejected_examples :
  toasts (fst (responseRejected (A := unit)
     (mkAxiosError (Some (mkErrorResponse 503 (mkErrorBody (Some "down"))))
        (Some "ERR_BAD_RESPONSE") "Request failed with status code 503")
     (mkEnv None []))) = ["Server error. Please try again later."]
  /\ toasts (fst (responseRejected (A := unit)
     (mkAxiosError None (Some "ECONNABORTED") "timeout of 30000ms exceeded")
     (mkEnv None []))) = ["Request timeout. Please try again."]
  /\ toasts (fst (responseRejected (A := unit)
     (mkAxiosError None (Some "ERR_NETWORK") "Network Error")
     (mkEnv None []))) = ["Network Error"]
  /\ toasts (fst (responseRejected (A := unit)
     (mkAxiosError (Some (mkErrorResponse 400 (mkErrorBody None)))
        (Some "ERR_BAD_REQUEST") "")
     (mkEnv None []))) = ["An error occurred"].
Proof. repeat split. Qed.

End Interceptor.

(** ** Dashboard statistics *)
Section Dashboard.

(** C10. Whatever the three replies are, a value returned by [getStats]
    has [active_patients] equal to [total_patients], both the [total] of
    the patients list, and an empty [recent_activities]; a value is
    returned exactly when the three calls succeed. *)
Theorem getStats_active_is_total
    (patientsReply : Reply (PaginatedResponse Patient))
    (overviewReply : Reply TodayOverview)
    (providersReply : Reply (PaginatedResponse Provider))
    (env : Env) :
  (forall stats,
      snd (dashboardApi.getStats patientsReply overviewReply providersReply env)
      = Fulfilled stats ->
      active_patients stats = total_patients stats
      /\ recent_activities stats = []
      /\ exists p, patientsReply = Fulfilled p /\ total_patients stats = total p)
  /\ (forall p a v,
      patientsReply = Fulfilled p -> overviewReply = Fulfilled a ->
      providersReply = Fulfilled v ->
      exists stats,
        dashboardApi.getStats patientsReply overviewReply providersReply env
        = (env, Fulfilled stats)).
Proof.
  split.
  - intros stats.
    destruct patientsReply as [p|e1], overviewReply as [a|e2], providersReply as [v|e3];
      simpl; try discriminate.
    intros [= <-]. simpl. repeat split. exists p. split; reflexivity.
  - intros p a v -> -> ->. eexists. reflexivity.
Qed.

Lemma getStats_active_is_total_witness :
  let p := mkPage [] 120 1 120 1 true false in
  let a := mkOverview (Some 9) (Some 4) None None in
  let v := mkPage [] 7 1 7 1 true false in
  exists stats,
    dashboardApi.getStats (Fulfilled p) (Fulfilled a) (Fulfilled v) (mkEnv None [])
    = (mkEnv None [], Fulfilled stats)
    /\ active_patients stats = total_patients stats.
Proof.
  cbv zeta.
  destruct (getStats_active_is_total
              (Fulfilled (mkPage [] 120 1 120 1 true false))
              (Fulfilled (mkOverview (Some 9) (Some 4) None None))
              (Fulfilled (mkPage [] 7 1 7 1 true false))
              (mkEnv None [])) as [Hany Hall].
  destruct (Hall _ _ _ eq_refl eq_refl eq_refl) as [stats Hs].
  exists stats. split; [exact Hs |].
  apply Hany. rewrite Hs. reflexivity.
Defined.

End Dashboard.

(** ** The list pages *)
Section ListPages.

Local Open Scope string_scope.

(** C6. On the patients page every change of the search term or of the
    search type sets the current page to 1, and the next list request
    asks for page 1.  The appointments page keeps no page number: its
    list request has no [page] parameter, before and after a change of
    the status or provider filter, so it never asks for a page beyond the
    first. *)
Theorem filter_change_resets_page :
  (forall (s : PatientsPage.State) (value : string),
      PatientsPage.currentPage (PatientsPage.step s (PatientsPage.SearchInput value)) = 1
      /\ PatientsPage.queryParams (PatientsPage.step s (PatientsPage.SearchInput value))
           !! "page" = Some (PNum (Num 1))
      /\ PatientsPage.currentPage
           (PatientsPage.step s (PatientsPage.SearchTypeSelect value)) = 1
      /\ PatientsPage.queryParams
           (PatientsPage.step s (PatientsPage.SearchTypeSelect value))
           !! "page" = Some (PNum (Num 1)))
  /\ (forall (tza : Z) (s : AppointmentsPage.State) (value : string),
      AppointmentsPage.queryParams tza
        (AppointmentsPage.step tza s (AppointmentsPage.SetStatusFilter value))
        !! "page" = None
      /\ AppointmentsPage.queryParams tza
        (AppointmentsPage.step tza s (AppointmentsPage.SetProviderFilter value))
        !! "page" = None).
Proof.
  split.
  - intros s value. repeat split.
  - intros tza s value. unfold AppointmentsPage.queryParams.
    split; repeat match goal with
                  | |- context [if ?b then _ else _] => destruct b
                  end;
      rewrite ?lookup_insert_ne by discriminate; apply lookup_singleton_ne;
      discriminate.
Qed.

Example filter_change_on_page_three :
  PatientsPage.currentPage
    (PatientsPage.step (PatientsPage.mkState "smi" "name" 3 20)
       (PatientsPage.SearchInput "smit")) = 1
  /\ PatientsPage.currentPage
    (PatientsPage.step (PatientsPage.mkState "smi" "name" 3 20) PatientsPage.Next) = 4.
Proof. split; reflexivity. Qed.

(** What holds of a query in every state it goes through. *)
Lemma query_invariant (A : Type) (q : Query A) (o : option (Settled A)) :
  reaches q o ->
  (q_status q = st_loading -> q_fetching q = true /\ q_error q = None)
  /\ (forall e, q_error q = Some e -> o = Some (Rejected e))
  /\ (forall r, o = Some (Fulfilled r) ->
        q_status q = st_success /\ q_data q = Some r /\ q_error q = None).
Proof.
  induction 1 as [| q o a Hr IH Hf | q o e Hr IH Hf | q o Hr IH Hf].
  - simpl. repeat split; try discriminate.
  - simpl. rewrite Hf. simpl. repeat split; try discriminate; congruence.
  - simpl. rewrite Hf. simpl. repeat split; try discriminate; congruence.
  - destruct IH as (IH1 & IH2 & IH3). simpl.
    destruct (q_data q) as [d|] eqn:Ed; simpl.
    + split; [| split].
      * intros Hs. split; [reflexivity | apply (IH1 Hs)].
      * exact IH2.
      * intros r Hr'. destruct (IH3 r Hr') as (H1 & H2 & H3). auto.
    + split; [| split].
      * auto.
      * discriminate.
      * intros r Hr'. destruct (IH3 r Hr') as (_ & H2 & _). discriminate H2.
Qed.

(** C7. Once the fetch that settled last succeeded with no items, the
    appointments page and the patients page show their empty state, also
    while a later fetch is under way.  The loading placeholder is shown
    only while a fetch is in flight, and the error state only when the
    fetch that settled last failed. *)
Theorem empty_list_renders_empty_state :
  (forall (q : Query (PaginatedResponse Appointment)) o,
      reaches q o ->
      (forall r, o = Some (Fulfilled r) -> items r = [] ->
         AppointmentsPage.render (useQuery q) = AppointmentsPage.EmptyView)
      /\ (AppointmentsPage.render (useQuery q) = AppointmentsPage.LoadingView ->
          q_fetching q = true)
      /\ (AppointmentsPage.render (useQuery q) = AppointmentsPage.ErrorView ->
          exists e, o = Some (Rejected e)))
  /\ (forall (s : PatientsPage.State) (q : Query (PaginatedResponse Patient)) o,
      reaches q o ->
      (forall r, o = Some (Fulfilled r) -> items r = [] ->
         exists title, PatientsPage.render s (useQuery q) = PatientsPage.EmptyView title)
      /\ (PatientsPage.render s (useQuery q) = PatientsPage.LoadingView ->
          q_fetching q = true)
      /\ (PatientsPage.render s (useQuery q) = PatientsPage.ErrorView ->
          exists e, o = Some (Rejected e))).
Proof.
  split.
  - intros q o Hr. destruct (query_invariant _ q o Hr) as (I1 & I2 & I3).
    unfold AppointmentsPage.render, useQuery. simpl. repeat split.
    + intros r Ho Hi. destruct (I3 r Ho) as (-> & -> & ->). rewrite Hi. reflexivity.
    + destruct (q_error q); [discriminate|].
      destruct (q_status q); try (intros _; apply I1; reflexivity);
        destruct (q_data q) as [d|]; try discriminate;
        destruct (length (items d) =? 0)%nat; discriminate.
    + destruct (q_error q) as [e|] eqn:Ee.
      * intros _. exists e. apply I2. reflexivity.
      * destruct (q_status q); try discriminate;
          destruct (q_data q) as [d|]; try discriminate;
          destruct (length (items d) =? 0)%nat; discriminate.
  - intros s q o Hr. destruct (query_invariant _ q o Hr) as (I1 & I2 & I3).
    unfold PatientsPage.render, useQuery. simpl. repeat split.
    + intros r Ho Hi. destruct (I3 r Ho) as (-> & -> & ->). rewrite Hi. simpl.
      eexists. reflexivity.
    + destruct (q_error q); [discriminate|].
      destruct (q_status q); try (intros _; apply I1; reflexivity);
        destruct (q_data q) as [d|]; try discriminate;
        destruct (length (items d) =? 0)%nat; discriminate.
    + destruct (q_error q) as [e|] eqn:Ee.
      * intros _. exists e. apply I2. reflexivity.
      * destruct (q_status q); try discriminate;
          destruct (q_data q) as [d|]; try discriminate;
          destruct (length (items d) =? 0)%nat; discriminate.
Qed.

(** The first fetch of the appointments list comes back empty. *)
Lemma empty_list_renders_empty_state_witness :
  let r : PaginatedResponse Appointment := mkPage [] 0 1 0 20 false false in
  reaches (step initial (Resolve r)) (Some (Fulfilled r))
  /\ AppointmentsPage.render (useQuery (step initial (Resolve r)))
     = AppointmentsPage.EmptyView.
Proof.
  cbv zeta.
  assert (reaches (step initial (Resolve (mkPage (A := Appointment) [] 0 1 0 20 false false)))
            (Some (Fulfilled (mkPage [] 0 1 0 20 false false)))) as Hr
    by (apply (reach_resolve initial None); [apply reach_initial | reflexivity]).
  split; [exact Hr |].
  apply (proj1 (proj1 empty_list_renders_empty_state _ _ Hr)
           (mkPage [] 0 1 0 20 false false)); reflexivity.
Defined.

End ListPages.

(** ** The badge and the variants derived at its call sites *)
Section Badges.

Local Open Scope string_scope.

Ltac eqb_cases :=
  repeat match goal with
         | |- context [String.eqb ?a ?b] => destruct (String.eqb a b)
         end; simpl; intros; try discriminate; try reflexivity.

Lemma getStatusVariant_unrecognized status :
  isRecognizedStatus status = false ->
  AppointmentsPage.getStatusVariant status = v_default.
Proof.
  unfold isRecognizedStatus, AppointmentsPage.getStatusVariant. simpl. eqb_cases.
Qed.

Lemma getAppointmentStatusVariant_unrecognized status :
  isRecognizedStatus status = false ->
  DashboardPage.getAppointmentStatusVariant status = v_default.
Proof.
  unfold isRecognizedStatus, DashboardPage.getAppointmentStatusVariant. simpl. eqb_cases.
Qed.

Lemma getPriorityVariant_unrecognized urgency :
  isRecognizedUrgency urgency = false ->
  AppointmentsPage.getPriorityVariant urgency = v_medium.
Proof.
  unfold isRecognizedUrgency, AppointmentsPage.getPriorityVariant. simpl. eqb_cases.
Qed.

(** C9, as the code has it.  The badge has nineteen named variants, each
    with its fixed classes, and a badge without a variant gets the
    classes of [default].  A status outside the recognized set yields the
    [default] variant at the three call sites that derive the variant
    from a status; an urgency outside the recognized set yields the
    [medium] variant. *)
Theorem badge_variants_and_fallbacks :
  (forall v : Variant, In v allVariants)
  /\ List.length allVariants = 19%nat
  /\ (forall v : Variant, Badge (Some v) = baseClass ++ " " ++ variantClass v)
  /\ Badge None = Badge (Some v_default)
  /\ (forall status, isRecognizedStatus status = false ->
        AppointmentsPage.getStatusVariant status = v_default
        /\ DashboardPage.getAppointmentStatusVariant status = v_default)
  /\ (forall urgency, isRecognizedUrgency urgency = false ->
        AppointmentsPage.getPriorityVariant urgency = v_medium).
Proof.
  split; [| split; [| split; [| split; [| split]]]].
  - intros v. destruct v; simpl; tauto.
  - reflexivity.
  - reflexivity.
  - reflexivity.
  - intros status H. split;
      [apply getStatusVariant_unrecognized | apply getAppointmentStatusVariant_unrecognized];
      exact H.
  - intros urgency H. apply getPriorityVariant_unrecognized. exact H.
Qed.

Lemma badge_variants_and_fallbacks_witness :
  isRecognizedStatus "no_show" = false
  /\ AppointmentsPage.getStatusVariant "no_show" = v_default
  /\ isRecognizedUrgency "routine" = false
  /\ AppointmentsPage.getPriorityVariant "routine" = v_medium.
Proof.
  destruct badge_variants_and_fallbacks as (_ & _ & _ & _ & Hs & Hu).
  split; [reflexivity | split; [| split; [reflexivity |]]].
  - apply (Hs "no_show"). reflexivity.
  - apply (Hu "routine"). reflexivity.
Defined.

(** C9, as stated: the urgency "routine" is outside the recognized set
    and its badge is [medium], not [default]. *)
Lemma unrecognized_urgency_is_medium :
  ~ unrecognizedValuesYieldDefault.
Proof.
  intros [_ H]. specialize (H "routine" eq_refl). discriminate H.
Qed.

Example status_variants :
  AppointmentsPage.getStatusVariant "Checked_In" = v_in_progress
  /\ AppointmentsPage.getStatusVariant "rescheduled" = v_default
  /\ AppointmentsPage.getPriorityVariant "URGENT" = v_urgent.
Proof. repeat split. Qed.

End Badges.

(* ===================================================================== *)
(** * Further properties of the code *)
(* ===================================================================== *)

Import helpers regexp SpecMore.

(** ** Dates: [isToday], [isOverdue], the age over time *)
Section MoreDates.

Ltac if_cases :=
  repeat match goal with
         | |- context [if ?a <? ?b then _ else _] => destruct (Z.ltb_spec a b)
         | |- context [if ?a =? ?b then _ else _] => destruct (Z.eqb_spec a b)
         end.

Lemma isToday_spec (tza now : Z) (d : option Z) :
  isToday tza now d = true
  <-> exists t, d = Some t /\ Day (LocalTime tza t) = Day (LocalTime tza now).
Proof.
  destruct d as [t|]; simpl.
  - rewrite !andb_true_iff, !Z.eqb_eq. unfold getDate, getMonth, getFullYear. split.
    + intros [[Hd Hm] Hy]. exists t. split; [reflexivity|].
      rewrite (Day_decompose (LocalTime tza t)), (Day_decompose (LocalTime tza now)).
      rewrite Hd, Hm, Hy. reflexivity.
    + intros (t' & [= <-] & H).
      destruct (fields_of_same_day _ _ H) as (Hy & Hm & Hd). auto.
  - split; [discriminate | intros (t & H & _); discriminate H].
Qed.

(** X1. [isToday] holds exactly when the date and the clock fall on the
    same local calendar day, whatever the times of day; a value that is
    not a date is never today. *)
Theorem isToday_iff_same_local_day (tza now : Z) (d : option Z) :
  isToday tza now d = true
  <-> exists t, d = Some t /\ Day (LocalTime tza t) = Day (LocalTime tza now).
Proof. apply isToday_spec. Qed.

Lemma Day_le t1 t2 : t1 <= t2 -> Day t1 <= Day t2.
Proof. intros H. unfold Day, msPerDay. apply Z.div_le_mono; lia. Qed.

(** X2. [isOverdue] holds exactly for a date strictly before the clock,
    so also for one earlier on the current day.  Such a date is never on a
    later local day, and it is on an earlier one exactly when it is not
    today. *)
Theorem isOverdue_before_now (tza now : Z) (d : option Z) :
  (isOverdue now d = true <-> exists t, d = Some t /\ t < now)
  /\ (forall t, d = Some t -> t < now ->
        Day (LocalTime tza t) <= Day (LocalTime tza now)
        /\ (isToday tza now d = false
            <-> Day (LocalTime tza t) < Day (LocalTime tza now))).
Proof.
  split.
  - destruct d as [t|]; simpl.
    + rewrite Z.ltb_lt. split; [intros H; exists t; auto | intros (t' & [= <-] & H); exact H].
    + split; [discriminate | intros (t & H & _); discriminate H].
  - intros t -> H.
    assert (Day (LocalTime tza t) <= Day (LocalTime tza now)) as Hle
      by (apply Day_le; unfold LocalTime; lia).
    split; [exact Hle|].
    pose proof (isToday_spec tza now (Some t)) as Hiff.
    destruct (isToday tza now (Some t)).
    + destruct (proj1 Hiff eq_refl) as (t' & [= <-] & Heq). split; [discriminate | lia].
    + split; [intros _ | reflexivity].
      destruct (Z.eq_dec (Day (LocalTime tza t)) (Day (LocalTime tza now))) as [E|E]; [|lia].
      assert (false = true) as F by (apply Hiff; exists t; auto). discriminate F.
Qed.

Lemma MonthStart_before m1 m2 l :
  0 <= l <= 1 -> 0 <= m1 -> m1 < m2 -> m2 <= 11 ->
  MonthStart m1 l + DaysInMonth m1 l <= MonthStart m2 l.
Proof.
  intros Hl H1 H12 H2.
  assert (m1 = 0 \/ m1 = 1 \/ m1 = 2 \/ m1 = 3 \/ m1 = 4 \/ m1 = 5 \/ m1 = 6 \/
          m1 = 7 \/ m1 = 8 \/ m1 = 9 \/ m1 = 10) as Hcases by lia.
  repeat (destruct Hcases as [-> | Hcases]); [.. | subst m1];
    unfold MonthStart at 1; unfold DaysInMonth; simpl;
    unfold MonthStart; if_cases; lia.
Qed.

(** The calendar order of the fields follows the order of the days. *)
Lemma dateLe_of_Day_le tza t1 t2 :
  Day (LocalTime tza t1) <= Day (LocalTime tza t2) ->
  dateLe (localDate tza t1) (localDate tza t2).
Proof.
  unfold dateLe, localDate, getFullYear, getMonth, getDate.
  set (a := LocalTime tza t1). set (b := LocalTime tza t2). intros H.
  pose proof (YearFromDay_spec (Day a)) as Ya. pose proof (YearFromDay_spec (Day b)) as Yb.
  fold (YearFromTime a) in Ya. fold (YearFromTime b) in Yb.
  pose proof (MonthFromTime_range a) as Ma. pose proof (MonthFromTime_range b) as Mb.
  pose proof (DateFromTime_range a) as Da. pose proof (DateFromTime_range b) as Db.
  pose proof (InLeapYear_range a) as La.
  rewrite (Day_decompose a), (Day_decompose b) in H.
  rewrite !MakeDay_in_year in H by assumption.
  destruct (Z.lt_trichotomy (YearFromTime a) (YearFromTime b)) as [Hy | [Hy | Hy]].
  - left. exact Hy.
  - right. split; [exact Hy|].
    unfold InLeapYear in *. rewrite <- Hy in *.
    destruct (Z.lt_trichotomy (MonthFromTime a) (MonthFromTime b)) as [Hm | [Hm | Hm]].
    + left. exact Hm.
    + right. split; [exact Hm|]. rewrite <- Hm in *. lia.
    + pose proof (MonthStart_before (MonthFromTime b) (MonthFromTime a)
                    (LeapFlag (YearFromTime a)) La) as Hs. lia.
  - exfalso.
    assert (DayFromYear (YearFromTime b + 1) <= DayFromYear (YearFromTime a)).
    { destruct (Z.eq_dec (YearFromTime b + 1) (YearFromTime a)) as [->|]; [lia|].
      apply Z.lt_le_incl, DayFromYear_lt. lia. }
    rewrite (Day_decompose a), (Day_decompose b) in *.
    rewrite !MakeDay_in_year in * by assumption. lia.
Qed.

Lemma dateLe_trans a b c : dateLe a b -> dateLe b c -> dateLe a c.
Proof.
  destruct a as [[y1 m1] d1], b as [[y2 m2] d2], c as [[y3 m3] d3].
  unfold dateLe. lia.
Qed.

(** X3. As the clock advances the age never goes down, and it is never
    negative once the birth date is not after the clock. *)
Theorem calculateAge_monotone (tza now now' b : Z) :
  (now <= now' -> calculateAge tza now (Some b) <= calculateAge tza now' (Some b))
  /\ (b <= now -> 0 <= calculateAge tza now (Some b)).
Proof.
  split.
  - intros H.
    apply calculateAge_full_years.
    apply (dateLe_trans _ (localDate tza now)).
    + apply calculateAge_full_years. lia.
    + apply dateLe_of_Day_le, Day_le. unfold LocalTime. lia.
  - intros H. apply calculateAge_full_years.
    assert (anniversary 0 (localDate tza b) = localDate tza b) as ->
      by (unfold anniversary, localDate; rewrite Z.add_0_r; reflexivity).
    apply dateLe_of_Day_le, Day_le. unfold LocalTime. lia.
Qed.

Lemma calculateAge_monotone_witness :
  atUTC 2024 6 14 12 <= atUTC 2031 1 2 3
  /\ calculateAge 0 (atUTC 2024 6 14 12) (Some (atUTC 2000 6 15 0))
     <= calculateAge 0 (atUTC 2031 1 2 3) (Some (atUTC 2000 6 15 0)).
Proof.
  assert (atUTC 2024 6 14 12 <= atUTC 2031 1 2 3) as H by (vm_compute; discriminate).
  split; [exact H |].
  apply (proj1 (calculateAge_monotone 0 (atUTC 2024 6 14 12) (atUTC 2031 1 2 3)
                  (atUTC 2000 6 15 0))).
  exact H.
Defined.

End MoreDates.

(** ** The appointments page: navigation and the week range *)
Section MoreAppointments.
Import AppointmentsPage.

(** X4. In every time zone, going one step and then one step back returns
    to the local calendar day the page started from, in day and in week
    view, where the two local times aimed at keep their day in the zone
    ([keepsDay]); the instant itself may differ when an offset changes in
    between.  In list view the state comes back unchanged, and the view
    and the filters are always kept. *)
Theorem navigateDate_round_trip (z : JSZone.Zone) (d : Direction) (s : State) :
  let back := match d with next => prev | prev => next end in
  let s1 := Zoned.navigateDate z d s in
  let n := stride (viewType s) d in
  (viewType s <> view_list ->
   keepsDay z (JSZone.LocalTime z (selectedDate s) + n * msPerDay) ->
   keepsDay z (JSZone.LocalTime z (selectedDate s1) - n * msPerDay) ->
   localDayIn z (selectedDate (Zoned.navigateDate z back s1)) = localDayIn z (selectedDate s))
  /\ (viewType s = view_list -> Zoned.navigateDate z back s1 = s)
  /\ viewType (Zoned.navigateDate z back s1) = viewType s
  /\ statusFilter (Zoned.navigateDate z back s1) = statusFilter s
  /\ providerFilter (Zoned.navigateDate z back s1) = providerFilter s.
Proof.
  destruct s as [t v sf pf]. cbv zeta. cbn [viewType selectedDate statusFilter providerFilter].
  split; [| split; [| repeat split]].
  - intros Hv H1 H2.
    pose proof (navigateDate_local_day z d t v sf pf Hv H1) as E1.
    set (s1 := Zoned.navigateDate z d (mkState t v sf pf)) in *.
    assert (s1 = mkState (selectedDate s1) v sf pf) as Es by reflexivity.
    rewrite Es.
    rewrite navigateDate_local_day; [| exact Hv |].
    + rewrite E1. destruct v, d; cbn [stride]; lia.
    + match type of H2 with
      | keepsDay _ ?x => match goal with |- keepsDay _ ?y => replace y with x end
      end; [exact H2 |].
      destruct v, d; cbn [stride]; lia.
  - intros ->. destruct d; reflexivity.
Qed.

(** New York, Saturday 9 March 2024, 02:30, day view: ['next'] aims at
    02:30 on the 10th, which the change of offset skips, and lands at
    03:30; ['prev'] then gives 03:30 on the 9th. *)
Lemma navigateDate_round_trip_witness :
  let z := JSZone.newYork2024 in
  let s := mkState (atUTC 2024 3 9 7 + 1800000) view_day "all" "all" in
  localDayIn z (selectedDate (Zoned.navigateDate z prev (Zoned.navigateDate z next s)))
  = localDayIn z (selectedDate s).
Proof.
  cbv zeta.
  apply (proj1 (navigateDate_round_trip JSZone.newYork2024 next
                  (mkState (atUTC 2024 3 9 7 + 1800000) view_day "all" "all"))).
  - discriminate.
  - vm_compute. reflexivity.
  - vm_compute. reflexivity.
Defined.

(** Going back [k] days from day [D] of a month, with [k < D], stays in
    the month. *)
Lemma back_within_month t k :
  0 <= k < DateFromTime t ->
  DateFromTime (t - k * msPerDay) = DateFromTime t - k.
Proof.
  intros Hk.
  pose proof (MonthFromTime_range t) as Hm.
  pose proof (DateFromTime_range t) as Hd.
  destruct (fields_unique (t - k * msPerDay) (YearFromTime t) (MonthFromTime t)
              (DateFromTime t - k)) as (_ & _ & E).
  - assumption.
  - unfold InLeapYear in *. lia.
  - replace (t - k * msPerDay) with (t + (- k) * msPerDay) by lia.
    rewrite Day_shift, (Day_decompose t). rewrite !MakeDay_in_year by assumption. lia.
  - exact E.
Qed.

(** The number of days from the Monday on or before a date to the date. *)
Lemma days_since_monday day :
  0 <= day <= 6 ->
  (day + 6) mod 7 = - (- day + (if day =? 0 then -6 else 1))
  /\ 0 <= (day + 6) mod 7 <= 6.
Proof.
  intros H.
  assert (day = 0 \/ day = 1 \/ day = 2 \/ day = 3 \/ day = 4 \/ day = 5 \/ day = 6)
    as Hc by lia.
  repeat (destruct Hc as [-> | Hc]); [.. | subst day]; split; vm_compute; try reflexivity;
    split; discriminate.
Qed.

Lemma zoned_week_dates z s :
  viewType s = view_week ->
  Zoned.getDateRangeDates z s
  = (let t := selectedDate s in
     let day := JSZone.getDay z t in
     let start := JSZone.setDate z t (JSZone.getDate z t - day + (if day =? 0 then -6 else 1)) in
     (start, JSZone.setDate z t (JSZone.getDate z start + 6))).
Proof. intros Hv. unfold Zoned.getDateRangeDates. rewrite Hv. reflexivity. Qed.

Lemma zoned_week_start z s :
  viewType s = view_week ->
  let k := (JSZone.getDay z (selectedDate s) + 6) mod 7 in
  keepsDay z (JSZone.LocalTime z (selectedDate s) - k * msPerDay) ->
  localDayIn z (fst (Zoned.getDateRangeDates z s)) = localDayIn z (selectedDate s) - k
  /\ 0 <= k <= 6.
Proof.
  intros Hv. cbv zeta. intros Hk.
  pose proof (WeekDay_range (JSZone.LocalTime z (selectedDate s))) as Hr.
  fold (JSZone.getDay z (selectedDate s)) in Hr.
  destruct (days_since_monday _ Hr) as [Ek Hk6].
  split; [| exact Hk6].
  unfold Zoned.getDateRangeDates. rewrite Hv. cbv zeta. cbn [fst].
  rewrite zone_setDate_day.
  - lia.
  - match type of Hk with
    | keepsDay _ ?x => match goal with |- keepsDay _ ?y => replace y with x by lia end
    end. exact Hk.
Qed.

(** X5. In week view, in every time zone, the start of the range is a
    Monday in local time: the local day [k] calendar days before the
    selected date, [k] at most six, where the local time aimed at keeps
    its day in the zone ([keepsDay]). *)
Theorem week_range_starts_on_monday (z : JSZone.Zone) (s : State) :
  viewType s = view_week ->
  let k := (JSZone.getDay z (selectedDate s) + 6) mod 7 in
  keepsDay z (JSZone.LocalTime z (selectedDate s) - k * msPerDay) ->
  JSZone.getDay z (fst (Zoned.getDateRangeDates z s)) = 1
  /\ localDayIn z (fst (Zoned.getDateRangeDates z s)) = localDayIn z (selectedDate s) - k
  /\ 0 <= k <= 6.
Proof.
  intros Hv k Hk. destruct (zoned_week_start z s Hv Hk) as [E Hr].
  fold k in E, Hr. split; [| split; assumption].
  assert (localDayIn z (fst (Zoned.getDateRangeDates z s))
          = localDayIn z (selectedDate s) + - k) as E' by lia.
  rewrite (getDay_of_day z _ _ _ E').
  pose proof (WeekDay_range (JSZone.LocalTime z (selectedDate s))) as Hw.
  fold (JSZone.getDay z (selectedDate s)) in Hw.
  unfold k. set (day := JSZone.getDay z (selectedDate s)) in *.
  assert (day = 0 \/ day = 1 \/ day = 2 \/ day = 3 \/ day = 4 \/ day = 5 \/ day = 6)
    as Hc by lia.
  clearbody day. clear - Hc.
  repeat (destruct Hc as [-> | Hc]); [.. | subst day]; reflexivity.
Qed.

(** New York, Sunday 10 March 2024, 10:00 (daylight time): the week starts
    on Monday 4 March, 10:00 (standard time). *)
Lemma week_range_starts_on_monday_witness :
  let s := mkState (atUTC 2024 3 10 14) view_week "all" "all" in
  keepsDay JSZone.newYork2024
    (JSZone.LocalTime JSZone.newYork2024 (selectedDate s)
     - (JSZone.getDay JSZone.newYork2024 (selectedDate s) + 6) mod 7 * msPerDay)
  /\ JSZone.getDay JSZone.newYork2024 (fst (Zoned.getDateRangeDates JSZone.newYork2024 s)) = 1.
Proof.
  cbv zeta.
  assert (keepsDay JSZone.newYork2024
    (JSZone.LocalTime JSZone.newYork2024
       (selectedDate (mkState (atUTC 2024 3 10 14) view_week "all" "all"))
     - (JSZone.getDay JSZone.newYork2024
          (selectedDate (mkState (atUTC 2024 3 10 14) view_week "all" "all")) + 6) mod 7
       * msPerDay)) as H by (vm_compute; reflexivity).
  split; [exact H |].
  apply (proj1 (week_range_starts_on_monday JSZone.newYork2024
                  (mkState (atUTC 2024 3 10 14) view_week "all" "all") eq_refl H)).
Defined.

(** X6. In week view, in every time zone, moving to the next or the
    previous week moves the start of the range by seven local calendar
    days, where the three local times aimed at keep their day in the zone
    ([keepsDay]). *)
Theorem week_range_start_follows_navigation
    (z : JSZone.Zone) (d : Direction) (s : State) :
  viewType s = view_week ->
  let t := selectedDate s in
  let s' := Zoned.navigateDate z d s in
  let k := (JSZone.getDay z t + 6) mod 7 in
  keepsDay z (JSZone.LocalTime z t + stride view_week d * msPerDay) ->
  keepsDay z (JSZone.LocalTime z t - k * msPerDay) ->
  keepsDay z (JSZone.LocalTime z (selectedDate s') - k * msPerDay) ->
  localDayIn z (fst (Zoned.getDateRangeDates z s'))
  = localDayIn z (fst (Zoned.getDateRangeDates z s)) + stride view_week d.
Proof.
  destruct s as [t v sf pf]. cbn [viewType selectedDate]. intros ->. cbv zeta.
  intros H1 H2 H3.
  pose proof (navigateDate_local_day z d t view_week sf pf ltac:(discriminate) H1) as E1.
  set (s' := Zoned.navigateDate z d (mkState t view_week sf pf)) in *.
  assert (JSZone.getDay z (selectedDate s') = JSZone.getDay z t) as Eday.
  { rewrite (getDay_of_day z t _ _ E1).
    pose proof (WeekDay_range (JSZone.LocalTime z t)) as Hr.
    fold (JSZone.getDay z t) in Hr.
    destruct d; cbn [stride].
    - replace (JSZone.getDay z t + -7) with (JSZone.getDay z t + (-1) * 7) by lia.
      rewrite Z.mod_add by lia. apply Z.mod_small. lia.
    - replace (JSZone.getDay z t + 7) with (JSZone.getDay z t + 1 * 7) by lia.
      rewrite Z.mod_add by lia. apply Z.mod_small. lia. }
  destruct (zoned_week_start z (mkState t view_week sf pf) eq_refl H2) as [Es _].
  assert (viewType s' = view_week) as Hv' by reflexivity.
  pose proof (zoned_week_start z s' Hv') as Hs'. cbv zeta in Hs'.
  rewrite Eday in Hs'. destruct (Hs' H3) as [Es' _].
  cbn [selectedDate] in Es. rewrite Es', Es, E1. lia.
Qed.

(** New York, Wednesday 6 March 2024, 10:00, ['next']: the week starts on
    Monday 4 March before and on Monday 11 March after, seven days less
    one hour later. *)
Lemma week_range_start_follows_navigation_witness :
  let z := JSZone.newYork2024 in
  let s := mkState (atUTC 2024 3 6 15) view_week "all" "all" in
  localDayIn z (fst (Zoned.getDateRangeDates z (Zoned.navigateDate z next s)))
  = localDayIn z (fst (Zoned.getDateRangeDates z s)) + 7.
Proof.
  cbv zeta.
  apply (week_range_start_follows_navigation JSZone.newYork2024 next
           (mkState (atUTC 2024 3 6 15) view_week "all" "all") eq_refl).
  - vm_compute. reflexivity.
  - vm_compute. reflexivity.
  - vm_compute. reflexivity.
Defined.

(** Going back [k] days from day [D] of a month, with [k >= D], lands in
    the month before. *)
Lemma back_into_previous_month t k :
  DateFromTime t <= k < DateFromTime t + 28 ->
  DateFromTime (t - k * msPerDay)
  = DaysInMonth (MonthFromTime (t - k * msPerDay)) (InLeapYear (t - k * msPerDay))
    + DateFromTime t - k.
Proof.
  intros Hk.
  pose proof (MonthFromTime_range t) as Hm.
  pose proof (DateFromTime_range t) as Hd.
  pose proof (InLeapYear_range t) as Hl.
  assert (Day (t - k * msPerDay) = Day t - k) as HD.
  { replace (t - k * msPerDay) with (t + (- k) * msPerDay) by lia.
    rewrite Day_shift. lia. }
  rewrite (Day_decompose t), MakeDay_in_year in HD by assumption.
  destruct (Z.eq_dec (MonthFromTime t) 0) as [E0|E0].
  - set (l' := LeapFlag (YearFromTime t - 1)).
    assert (0 <= l' <= 1) as Hl'
      by (unfold l'; destruct (LeapFlag_cases (YearFromTime t - 1)) as [[-> _]|[-> _]]; lia).
    destruct (fields_unique (t - k * msPerDay) (YearFromTime t - 1) 11
                (31 + DateFromTime t - k)) as (Hy' & Hm' & Hd').
    + lia.
    + change (DaysInMonth 11 (LeapFlag (YearFromTime t - 1))) with 31. lia.
    + rewrite MakeDay_in_year by lia. rewrite HD, E0.
      pose proof (DayFromYear_succ (YearFromTime t - 1)) as Hs.
      replace (YearFromTime t - 1 + 1) with (YearFromTime t) in Hs by lia.
      fold l'. destruct (LeapFlag_cases (YearFromTime t - 1)) as [[E1 E2]|[E1 E2]];
        fold l' in E1; rewrite E1, E2 in *; unfold MonthStart; simpl; lia.
    + rewrite Hd', Hm'. change (DaysInMonth 11 _) with 31. lia.
  - pose proof (MonthStart_succ (MonthFromTime t - 1) (InLeapYear t)) as Hs.
    replace (MonthFromTime t - 1 + 1) with (MonthFromTime t) in Hs by lia.
    pose proof (DaysInMonth_range (MonthFromTime t - 1) (InLeapYear t) Hl) as Hr.
    destruct (fields_unique (t - k * msPerDay) (YearFromTime t) (MonthFromTime t - 1)
                (DaysInMonth (MonthFromTime t - 1) (InLeapYear t) + DateFromTime t - k))
      as (Hy' & Hm' & Hd').
    + lia.
    + unfold InLeapYear in *. lia.
    + rewrite MakeDay_in_year by lia. unfold InLeapYear in *. lia.
    + rewrite Hd', Hm'. unfold InLeapYear. rewrite Hy'. lia.
Qed.

(** The day of the month [k] local days earlier. *)
Lemma date_of_earlier_day z t start k :
  localDayIn z start = localDayIn z t - k ->
  0 <= k <= 6 ->
  (k < JSZone.getDate z t -> JSZone.getDate z start = JSZone.getDate z t - k)
  /\ (JSZone.getDate z t <= k ->
      JSZone.getDate z start
      = DaysInMonth (JSZone.getMonth z start) (InLeapYear (JSZone.LocalTime z start))
        + JSZone.getDate z t - k).
Proof.
  unfold localDayIn, JSZone.getDate, JSZone.getMonth.
  generalize (JSZone.LocalTime z start) (JSZone.LocalTime z t). clear.
  intros a b Es Hr.
  assert (Day a = Day (b - k * msPerDay)) as Ed.
  { replace (b - k * msPerDay) with (b + (- k) * msPerDay) by lia.
    rewrite Day_shift. lia. }
  destruct (fields_of_same_day _ _ Ed) as (Hy & Hm & Hd).
  pose proof (DateFromTime_range b) as Hdr.
  unfold InLeapYear. rewrite Hd, Hm, Hy. fold (InLeapYear (b - k * msPerDay)).
  split; intros Hc.
  - apply back_within_month. lia.
  - apply back_into_previous_month. lia.
Qed.

(** X7. The length of the week range in local calendar days, in every
    time zone.  Let [k] be the number of days from the Monday to the
    selected date.  When the Monday lies in the month of the selected date
    ([k] less than the day of the month), the end is six days after the
    start.  Otherwise the Monday lies in the month before, and the end is
    six days plus the length of that month after the start.  The two
    local times aimed at keep their day in the zone ([keepsDay]). *)
Theorem week_range_length (z : JSZone.Zone) (s : State) :
  viewType s = view_week ->
  let t := selectedDate s in
  let start := fst (Zoned.getDateRangeDates z s) in
  let end_ := snd (Zoned.getDateRangeDates z s) in
  let k := (JSZone.getDay z t + 6) mod 7 in
  keepsDay z (JSZone.LocalTime z t - k * msPerDay) ->
  keepsDay z (JSZone.LocalTime z t
              + (JSZone.getDate z start + 6 - JSZone.getDate z t) * msPerDay) ->
  (k < JSZone.getDate z t -> localDayIn z end_ = localDayIn z start + 6)
  /\ (JSZone.getDate z t <= k ->
      localDayIn z end_
      = localDayIn z start + 6
        + DaysInMonth (JSZone.getMonth z start) (InLeapYear (JSZone.LocalTime z start))).
Proof.
  intros Hv. cbv zeta. intros Hk1 Hk2.
  destruct (zoned_week_start z s Hv Hk1) as [Es Hr].
  destruct (date_of_earlier_day z _ _ _ Es Hr) as [H1 H2].
  revert Hk2 Es H1 H2. rewrite (zoned_week_dates z s Hv). cbv zeta. cbn [fst snd].
  intros Hk2 Es H1 H2.
  rewrite (zone_setDate_day z _ _ Hk2), Es.
  split; intros Hc; [rewrite (H1 Hc) | rewrite (H2 Hc)]; lia.
Qed.

(** New York, Wednesday 6 March 2024, 10:00: Monday 4 March to Sunday
    10 March, the day the clocks go forward. *)
Lemma week_range_length_witness :
  let z := JSZone.newYork2024 in
  let s := mkState (atUTC 2024 3 6 15) view_week "all" "all" in
  localDayIn z (snd (Zoned.getDateRangeDates z s))
  = localDayIn z (fst (Zoned.getDateRangeDates z s)) + 6.
Proof.
  cbv zeta.
  apply (proj1 (week_range_length JSZone.newYork2024
                  (mkState (atUTC 2024 3 6 15) view_week "all" "all") eq_refl
                  ltac:(vm_compute; reflexivity) ltac:(vm_compute; reflexivity))).
  vm_compute. reflexivity.
Defined.

(** The same week in instants: the end is six days less one hour after
    the start, the start of the next week seven days less one hour after
    this one; and the round trip over the skipped hour ends one hour
    later than it began. *)
Example week_range_over_a_change_of_offset :
  let z := JSZone.newYork2024 in
  let s := mkState (atUTC 2024 3 6 15) view_week "all" "all" in
  fst (Zoned.getDateRangeDates z s) = atUTC 2024 3 4 15
  /\ snd (Zoned.getDateRangeDates z s) = atUTC 2024 3 10 14
  /\ snd (Zoned.getDateRangeDates z s)
     = fst (Zoned.getDateRangeDates z s) + 6 * msPerDay - JSZone.msPerHour
  /\ fst (Zoned.getDateRangeDates z (Zoned.navigateDate z next s))
     = fst (Zoned.getDateRangeDates z s) + 7 * msPerDay - JSZone.msPerHour
  /\ selectedDate (Zoned.navigateDate z prev
       (Zoned.navigateDate z next (mkState (atUTC 2024 3 9 7 + 1800000) view_day "all" "all")))
     = atUTC 2024 3 9 8 + 1800000.
Proof. cbv zeta. repeat split; vm_compute; reflexivity. Qed.



End MoreAppointments.

(** ** Route and filter values: [parseInt] of a printed id *)
Section Ids.
Import AppointmentsPage.












(** X10. The parameters of the appointments request: the two ends of the
    range always; [status] with the value of the filter unless it is
    "all"; [provider_id] unless that filter is "all"; and nothing else. *)
Theorem appointment_query_parameters (tza : Z) (s : State) (key : string) :
  queryParams tza s !! key
  = if String.eqb key "start_date" then Some (PStr (start_date (getDateRange tza s)))
    else if String.eqb key "end_date" then Some (PStr (end_date (getDateRange tza s)))
    else if String.eqb key "status" then
      (if String.eqb (statusFilter s) "all" then None else Some (PStr (statusFilter s)))
    else if String.eqb key "provider_id" then
      (if String.eqb (providerFilter s) "all" then None
       else Some (PNum (parseInt (providerFilter s))))
    else None.
Proof.
  unfold queryParams. cbv zeta.
  destruct (String.eqb_spec key "start_date") as [->|H1];
    [| destruct (String.eqb_spec key "end_date") as [->|H2];
       [| destruct (String.eqb_spec key "status") as [->|H3];
          [| destruct (String.eqb_spec key "provider_id") as [->|H4]]]];
    destruct (String.eqb (statusFilter s) "all"),
             (String.eqb (providerFilter s) "all"); simpl;
    repeat first
      [ rewrite lookup_insert_eq; reflexivity
      | rewrite lookup_insert_ne by congruence
      | rewrite lookup_singleton_eq; reflexivity
      | rewrite lookup_singleton_ne by congruence; reflexivity ].
Qed.



End Ids.

(** ** The patients page over sequences of events *)
Section PatientsRuns.
Import PatientsPage.

Lemma runPatientsPage_perPage evs : forall s,
  perPage (runPatientsPage s evs) = perPage s.
Proof.
  induction evs as [|ev evs IH]; intros s; [reflexivity|].
  unfold runPatientsPage in *. simpl. rewrite IH. destruct ev; reflexivity.
Qed.

Lemma runPatientsPage_paging evs : forall s,
  forallb isPaging evs = true ->
  searchTerm (runPatientsPage s evs) = searchTerm s
  /\ searchType (runPatientsPage s evs) = searchType s
  /\ currentPage (runPatientsPage s evs) = currentPage s + pageMoves evs.
Proof.
  induction evs as [|ev evs IH]; intros s H.
  - simpl. repeat split; lia.
  - simpl in H. apply andb_true_iff in H as [Hev Hrest].
    unfold runPatientsPage in *. simpl fold_left.
    destruct (IH (step s ev) Hrest) as (-> & -> & ->).
    destruct ev; try discriminate Hev; simpl; repeat split; lia.
Qed.

(** X12. Whatever the user does on the patients page, the page size stays
    the one of the first render (20) and every list request carries it;
    paging alone never changes the search term or the search type, and
    moves the page by the net number of steps; paging after a search
    counts from page 1. *)
Theorem patients_page_runs (evs paging : list Event) (value : string) :
  perPage (runPatientsPage initialState evs) = 20
  /\ queryParams (runPatientsPage initialState evs) !! "per_page" = Some (PNum (Num 20))
  /\ (forallb isPaging paging = true ->
      forall s,
        searchTerm (runPatientsPage s paging) = searchTerm s
        /\ searchType (runPatientsPage s paging) = searchType s
        /\ currentPage (runPatientsPage s paging) = currentPage s + pageMoves paging
        /\ currentPage (runPatientsPage s (SearchInput value :: paging))
           = 1 + pageMoves paging).
Proof.
  split; [| split].
  - apply runPatientsPage_perPage.
  - unfold queryParams. rewrite !lookup_insert_ne by discriminate.
    rewrite lookup_insert_eq, runPatientsPage_perPage. reflexivity.
  - intros H s. destruct (runPatientsPage_paging paging s H) as (H1 & H2 & H3).
    repeat split; try assumption.
    change (runPatientsPage s (SearchInput value :: paging))
      with (runPatientsPage (step s (SearchInput value)) paging).
    destruct (runPatientsPage_paging paging (step s (SearchInput value)) H) as (_ & _ & ->).
    reflexivity.
Qed.

Lemma patients_page_runs_witness :
  currentPage (runPatientsPage initialState [Next; Next; SearchInput "sm"; Next; Previous; Next])
  = 1 + pageMoves [Next; Previous; Next].
Proof.
  destruct (patients_page_runs [] [Next; Previous; Next] "sm") as (_ & _ & H).
  specialize (H eq_refl (runPatientsPage initialState [Next; Next])).
  destruct H as (_ & _ & _ & H). exact H.
Defined.

End PatientsRuns.

(** ** The interceptors together *)
Section MoreInterceptors.

Local Open Scope string_scope.

Lemma requestInterceptor_unchanged config env :
  truthy (storedToken env) = false -> requestInterceptor config env = config.
Proof.
  unfold requestInterceptor, storedToken. intros ->. reflexivity.
Qed.

(** X13. The request interceptor adds [Authorization: Bearer <token>]
    exactly when a non-empty token is stored in the browser, leaves the
    request as it is otherwise (no token, an empty token, no browser),
    and never touches another header. *)
Theorem request_carries_stored_token (config : RequestConfig) (env : Env) :
  (forall t, storedToken env = Some t -> t <> "" ->
     headers (requestInterceptor config env) !! "Authorization" = Some ("Bearer " ++ t))
  /\ (truthy (storedToken env) = false -> requestInterceptor config env = config)
  /\ (forall k, k <> "Authorization" ->
     headers (requestInterceptor config env) !! k = headers config !! k).
Proof.
  split; [| split].
  - intros t Ht Hne. unfold requestInterceptor. unfold storedToken in Ht. rewrite Ht.
    unfold truthy. destruct (String.eqb_spec t ""); [contradiction|]. simpl.
    apply lookup_insert_eq.
  - apply requestInterceptor_unchanged.
  - intros k Hk. unfold requestInterceptor.
    destruct (truthy _); [|reflexivity]. simpl.
    apply lookup_insert_ne. congruence.
Qed.

Lemma request_carries_stored_token_witness :
  headers (requestInterceptor (mkConfig {[ "Accept" := "application/json" ]})
             (mkEnv (Some (mkBrowser {[ "auth_token" := "abc" ]} "/")) []))
    !! "Authorization" = Some "Bearer abc".
Proof.
  apply (proj1 (request_carries_stored_token
                  (mkConfig {[ "Accept" := "application/json" ]})
                  (mkEnv (Some (mkBrowser {[ "auth_token" := "abc" ]} "/")) []))
           "abc").
  - reflexivity.
  - discriminate.
Defined.

(** X14. After a reply with status 401 has gone through the response
    interceptor, the next request leaves without a bearer token:
    the request interceptor returns its configuration unchanged. *)
Theorem no_token_after_unauthorized
    (A : Type) (m : Method) (url : string) (params : gmap string Param)
    (e : AxiosError) (env : Env) (config : RequestConfig) :
  error_status e = Some 401 ->
  requestInterceptor config (fst (request (A := A) m url params (Rejected e) env))
  = config.
Proof.
  intros H. apply requestInterceptor_unchanged.
  unfold request. rewrite (responseRejected_401 A e env H). simpl.
  unfold storedToken. destruct (window env) as [w|] eqn:Ew; simpl.
  - rewrite lookup_delete_eq. reflexivity.
  - rewrite Ew. reflexivity.
Qed.

Lemma no_token_after_unauthorized_witness :
  let e := mkAxiosError (Some (mkErrorResponse 401 (mkErrorBody None)))
             (Some "ERR_BAD_REQUEST") "Request failed with status code 401" in
  let env := mkEnv (Some (mkBrowser {[ "auth_token" := "abc" ]} "/patients")) [] in
  headers (requestInterceptor (mkConfig ∅) env) !! "Authorization" = Some "Bearer abc"
  /\ requestInterceptor (mkConfig ∅)
       (fst (patientApi.getById 3 (Rejected e) env)) = mkConfig ∅.
Proof.
  cbv zeta. split; [reflexivity |].
  apply (no_token_after_unauthorized Patient GET ("/api/v1/patients/" ++ pretty 3) ∅).
  reflexivity.
Defined.

Lemma responseRejected_env (A : Type) (e : AxiosError) (env : Env) :
  statusIs e 401 = false ->
  exists msg, fst (responseRejected (A := A) e env) = toast_error msg env.
Proof.
  intros H. unfold responseRejected. rewrite H.
  repeat match goal with
         | |- context [if ?b then _ else _] => destruct b
         end; eexists; reflexivity.
Qed.

Lemma call_effects_lemma
    (A : Type) (m : Method) (url : string) (params : gmap string Param)
    (reply : Reply A) (env : Env) :
  let env' := fst (request m url params reply env) in
  (window env' <> window env ->
     exists e, reply = Rejected e /\ error_status e = Some 401)
  /\ (forall w w' k, window env = Some w -> window env' = Some w' ->
       k <> "auth_token" -> localStorage w' !! k = localStorage w !! k)
  /\ (exists new, toasts env' = (toasts env ++ new)%list
                  /\ List.length new = notifications reply)
  /\ (forall r, reply = Fulfilled r -> env' = env).
Proof.
  cbv zeta. destruct reply as [r|e]; unfold request.
  - simpl. split; [| split; [| split]].
    + intros H. contradiction H. reflexivity.
    + intros w w' k Hw Hw' _. congruence.
    + exists []. rewrite app_nil_r. split; reflexivity.
    + reflexivity.
  - destruct (statusIs e 401) eqn:E401.
    + pose proof (proj1 (statusIs_true e 401) E401) as H.
      rewrite (responseRejected_401 A e env H). simpl. rewrite E401.
      split; [| split; [| split]].
      * intros _. exists e. split; [reflexivity | exact H].
      * intros w w' k Hw. rewrite Hw. intros [= <-] Hk. simpl.
        apply lookup_delete_ne. congruence.
      * exists []. rewrite app_nil_r.
        split; [destruct (window env); reflexivity | reflexivity].
      * discriminate.
    + destruct (responseRejected_env A e env E401) as [msg ->]. simpl. rewrite E401.
      split; [| split; [| split]].
      * intros H. contradiction H. reflexivity.
      * intros w w' k Hw Hw' _. congruence.
      * exists [msg]. split; reflexivity.
      * discriminate.
Qed.

(** X15. What a call can do to the environment.  The browser state
    changes only through a 401, and then only the [auth_token] entry of
    the storage and the location; the notifications already raised are
    kept and at most one is added; a call that succeeds changes nothing. *)
Theorem call_effects
    (A : Type) (m : Method) (url : string) (params : gmap string Param)
    (reply : Reply A) (env : Env) :
  let env' := fst (request m url params reply env) in
  (window env' <> window env ->
     exists e, reply = Rejected e /\ error_status e = Some 401)
  /\ (forall w w' k, window env = Some w -> window env' = Some w' ->
       k <> "auth_token" -> localStorage w' !! k = localStorage w !! k)
  /\ (exists new, toasts env' = (toasts env ++ new)%list
                  /\ List.length new = notifications reply)
  /\ (forall r, reply = Fulfilled r -> env' = env).
Proof. apply call_effects_lemma. Qed.

Lemma call_effects_witness :
  let e := mkAxiosError (Some (mkErrorResponse 404 (mkErrorBody None)))
             (Some "ERR_BAD_REQUEST") "Request failed with status code 404" in
  let env := mkEnv (Some (mkBrowser {[ "auth_token" := "abc"; "theme" := "dark" ]} "/")) [] in
  window (fst (providerApi.getById 9 (Rejected e) env)) ≫=
    (fun w' => localStorage w' !! "theme") = Some "dark".
Proof.
  cbv zeta.
  destruct (call_effects Provider GET ("/api/v1/providers/" ++ pretty 9) ∅
              (Rejected (mkAxiosError (Some (mkErrorResponse 404 (mkErrorBody None)))
                           (Some "ERR_BAD_REQUEST") "Request failed with status code 404"))
              (mkEnv (Some (mkBrowser {[ "auth_token" := "abc"; "theme" := "dark" ]} "/")) []))
    as (_ & H & _).
  specialize (H (mkBrowser {[ "auth_token" := "abc"; "theme" := "dark" ]} "/")
                (mkBrowser {[ "auth_token" := "abc"; "theme" := "dark" ]} "/")
                "theme" eq_refl eq_refl ltac:(discriminate)).
  exact H.
Defined.

(** X16. [getStats] starts its three calls together, so each failed call
    raises its own notification (none for a 401) even though only one
    error is reported to the caller; it is rejected exactly when one of
    the calls is. *)
Theorem getStats_notifications
    (patientsReply : Reply (PaginatedResponse Patient))
    (overviewReply : Reply TodayOverview)
    (providersReply : Reply (PaginatedResponse Provider))
    (env : Env) :
  let result := dashboardApi.getStats patientsReply overviewReply providersReply env in
  List.length (toasts (fst result))
  = (List.length (toasts env) + notifications patientsReply
     + notifications overviewReply + notifications providersReply)%nat
  /\ ((exists e, snd result = Rejected e)
      <-> (exists e, patientsReply = Rejected e) \/ (exists e, overviewReply = Rejected e)
          \/ (exists e, providersReply = Rejected e)).
Proof.
  cbv zeta. unfold dashboardApi.getStats, bind, ret.
  unfold patientApi.getAll, appointmentApi.getTodayOverview, providerApi.getAll.
  pose proof (fun B (r : Reply B) en =>
                proj1 (proj2 (proj2 (call_effects_lemma B GET "" ∅ r en)))) as Hc.
  unfold request in *.
  split.
  - destruct (Hc _ patientsReply env) as (n1 & E1 & L1).
    destruct (match patientsReply with
              | Fulfilled r => responseFulfilled r
              | Rejected e => responseRejected e
              end env) as [env1 p] eqn:Ep. simpl in E1.
    destruct (Hc _ overviewReply env1) as (n2 & E2 & L2).
    destruct (match overviewReply with
              | Fulfilled r => responseFulfilled r
              | Rejected e => responseRejected e
              end env1) as [env2 a] eqn:Ea. simpl in E2.
    destruct (Hc _ providersReply env2) as (n3 & E3 & L3).
    destruct (match providersReply with
              | Fulfilled r => responseFulfilled r
              | Rejected e => responseRejected e
              end env2) as [env3 v] eqn:Ev. simpl in E3.
    simpl. rewrite E3, E2, E1, !length_app. lia.
  - destruct patientsReply as [p|e1], overviewReply as [a|e2], providersReply as [v|e3];
      simpl; split;
      try (intros [e He]; discriminate He);
      try (intros [[e He] | [[e He] | [e He]]]; discriminate He);
      try solve [intros _; eauto].
Qed.

End MoreInterceptors.

(** ** Strings: phone numbers, sanitising, capitals, colours *)
Section MoreStrings.

Local Open Scope string_scope.

(** X17. Formatting never changes whether a phone number is valid: a
    valid number (ten digits) becomes the fourteen characters
    [(XXX) XXX-XXXX], still valid; an invalid one is returned as it is. *)
Theorem formatPhoneNumber_keeps_validity (phone : string) :
  isValidPhone (formatPhoneNumber phone) = isValidPhone phone
  /\ (isValidPhone phone = true -> String.length (formatPhoneNumber phone) = 14%nat)
  /\ (isValidPhone phone = false -> formatPhoneNumber phone = phone).
Proof.
  unfold isValidPhone.
  destruct (Nat.eqb_spec (String.length (stripNonDigits phone)) 10) as [Hlen|Hlen].
  - destruct (ten_digits phone Hlen)
      as (c0 & c1 & c2 & c3 & c4 & c5 & c6 & c7 & c8 & c9 & E & HD).
    assert (phone <> "") as Hne by (intros ->; discriminate Hlen).
    rewrite formatPhoneNumber_nonempty by assumption.
    rewrite Hlen, E. simpl.
    repeat match goal with
           | H : Forall _ (_ :: _) |- _ => inversion H; subst; clear H
           end.
    repeat match goal with
           | H : isDigit ?c = true |- _ => rewrite H; clear H
           end.
    repeat split; try reflexivity. discriminate.
  - assert (formatPhoneNumber phone = phone) as ->.
    { unfold formatPhoneNumber.
      destruct (String.eqb_spec phone "") as [->|Hne]; [reflexivity|].
      destruct (Nat.eqb_spec (String.length (stripNonDigits phone)) 10);
        [contradiction | reflexivity]. }
    destruct (Nat.eqb_spec (String.length (stripNonDigits phone)) 10); [contradiction|].
    repeat split; try reflexivity. discriminate.
Qed.

Lemma formatPhoneNumber_keeps_validity_witness :
  isValidPhone "555 123 4567" = true
  /\ String.length (formatPhoneNumber "555 123 4567") = 14%nat.
Proof.
  split; [reflexivity |].
  apply (proj1 (proj2 (formatPhoneNumber_keeps_validity "555 123 4567"))).
  reflexivity.
Defined.

Lemma removeAngles_notAngle s : allChars notAngle (removeAngles s) = true.
Proof.
  induction s as [|c s IH]; [reflexivity|]. simpl.
  destruct (Ascii.eqb c "<" || Ascii.eqb c ">") eqn:E; [exact IH|].
  simpl. unfold notAngle at 1. rewrite E. exact IH.
Qed.

Lemma removeAngles_id s : allChars notAngle s = true -> removeAngles s = s.
Proof.
  induction s as [|c s IH]; [reflexivity|]. simpl. intros H.
  apply andb_true_iff in H as [Hc Hs]. unfold notAngle in Hc.
  destruct (Ascii.eqb c "<" || Ascii.eqb c ">"); [discriminate|].
  rewrite IH by assumption. reflexivity.
Qed.

Lemma trimStart_allChars p s : allChars p s = true -> allChars p (trimStart s) = true.
Proof.
  induction s as [|c s IH]; [reflexivity|]. simpl. intros H.
  destruct (isWhiteSpace c); [|exact H].
  apply andb_true_iff in H as [_ Hs]. auto.
Qed.

Lemma trimEnd_allChars p s : allChars p s = true -> allChars p (trimEnd s) = true.
Proof.
  induction s as [|c s IH]; [reflexivity|]. simpl. intros H.
  apply andb_true_iff in H as [Hc Hs].
  destruct (isWhiteSpace c && String.eqb (trimEnd s) ""); [reflexivity|].
  simpl. rewrite Hc. auto.
Qed.

Lemma trimStart_length s : (String.length (trimStart s) <= String.length s)%nat.
Proof.
  induction s as [|c s IH]; simpl; [lia|]. destruct (isWhiteSpace c); simpl; lia.
Qed.

Lemma trimStart_fixed s :
  trimStart s = s <-> match s with
                      | EmptyString => True
                      | String c _ => isWhiteSpace c = false
                      end.
Proof.
  destruct s as [|c r]; simpl; [tauto|].
  destruct (isWhiteSpace c) eqn:E.
  - split; [|discriminate]. intros H.
    pose proof (trimStart_length r) as Hl. rewrite H in Hl. simpl in Hl. lia.
  - tauto.
Qed.

Lemma trimStart_idem s : trimStart (trimStart s) = trimStart s.
Proof.
  induction s as [|c s IH]; [reflexivity|]. simpl.
  destruct (isWhiteSpace c) eqn:E; [exact IH|]. simpl. rewrite E. reflexivity.
Qed.

Lemma trimEnd_idem s : trimEnd (trimEnd s) = trimEnd s.
Proof.
  induction s as [|c s IH]; [reflexivity|]. simpl.
  destruct (isWhiteSpace c && String.eqb (trimEnd s) "") eqn:E; [reflexivity|].
  simpl. rewrite IH, E. reflexivity.
Qed.

Lemma trimStart_trimEnd s : trimStart s = s -> trimStart (trimEnd s) = trimEnd s.
Proof.
  intros H. apply trimStart_fixed in H. apply trimStart_fixed.
  destruct s as [|c r]; simpl; [exact I|].
  rewrite H. simpl. exact H.
Qed.

Lemma trim_idem s : trim (trim s) = trim s.
Proof.
  unfold trim.
  rewrite (trimStart_trimEnd (trimStart s)) by apply trimStart_idem.
  apply trimEnd_idem.
Qed.

(** X18. The result of [sanitizeInput] contains neither [<] nor [>], has
    no white space at either end, and sanitising it again changes
    nothing. *)
Theorem sanitizeInput_clean (input : string) :
  allChars notAngle (sanitizeInput input) = true
  /\ trimStart (sanitizeInput input) = sanitizeInput input
  /\ trimEnd (sanitizeInput input) = sanitizeInput input
  /\ sanitizeInput (sanitizeInput input) = sanitizeInput input.
Proof.
  unfold sanitizeInput.
  destruct (String.eqb_spec input "") as [->|Hne]; [repeat split|].
  assert (allChars notAngle (trim (removeAngles input)) = true) as Ha
    by (apply trimEnd_allChars, trimStart_allChars, removeAngles_notAngle).
  split; [exact Ha | split; [| split]].
  - unfold trim. apply trimStart_trimEnd, trimStart_idem.
  - unfold trim. apply trimEnd_idem.
  - destruct (String.eqb_spec (trim (removeAngles input)) "") as [E|E]; [congruence|].
    rewrite (removeAngles_id _ Ha). apply trim_idem.
Qed.

Lemma lowerChar_idem c : lowerChar (lowerChar c) = lowerChar c.
Proof. destruct c as [[] [] [] [] [] [] [] []]; reflexivity. Qed.

Lemma upperChar_idem c : upperChar (upperChar c) = upperChar c.
Proof. destruct c as [[] [] [] [] [] [] [] []]; reflexivity. Qed.

Lemma lowerChar_upperChar c : lowerChar (upperChar c) = lowerChar c.
Proof. destruct c as [[] [] [] [] [] [] [] []]; reflexivity. Qed.

Lemma toLowerCase_idem s : toLowerCase (toLowerCase s) = toLowerCase s.
Proof.
  induction s as [|c s IH]; [reflexivity|]. simpl. rewrite lowerChar_idem, IH. reflexivity.
Qed.

Lemma toLowerCase_toUpperCase s : toLowerCase (toUpperCase s) = toLowerCase s.
Proof.
  induction s as [|c s IH]; [reflexivity|]. simpl.
  rewrite lowerChar_upperChar, IH. reflexivity.
Qed.

Lemma toLowerCase_length s : String.length (toLowerCase s) = String.length s.
Proof. induction s as [|c s IH]; [reflexivity|]. simpl. rewrite IH. reflexivity. Qed.

Lemma substring_all s : substring 0 (String.length s) s = s.
Proof. induction s as [|c s IH]; [reflexivity|]. simpl. rewrite IH. reflexivity. Qed.

Lemma capitalizeFirst_cons c r :
  capitalizeFirst (String c r) = String (upperChar c) (toLowerCase r).
Proof.
  unfold capitalizeFirst, sliceFrom. simpl.
  rewrite Nat.sub_0_r, substring_all. reflexivity.
Qed.

(** X19. [capitalizeFirst] keeps the length of the string, maps the empty
    string to itself, does not depend on the letter case of what follows
    the first character, and capitalising twice is capitalising once. *)
Theorem capitalizeFirst_idempotent (str : string) :
  String.length (capitalizeFirst str) = String.length str
  /\ capitalizeFirst (capitalizeFirst str) = capitalizeFirst str
  /\ (forall c rest,
        capitalizeFirst (String c (toUpperCase rest)) = capitalizeFirst (String c rest))
  /\ (str = "" <-> capitalizeFirst str = "").
Proof.
  destruct str as [|c r].
  - repeat split; try reflexivity.
    intros c rest. rewrite !capitalizeFirst_cons, toLowerCase_toUpperCase. reflexivity.
  - rewrite !capitalizeFirst_cons, upperChar_idem, toLowerCase_idem.
    split; [simpl; rewrite toLowerCase_length; reflexivity |].
    split; [reflexivity |].
    split; [| split; discriminate].
    intros c' rest. rewrite !capitalizeFirst_cons, toLowerCase_toUpperCase. reflexivity.
Qed.

(** X20. The initials are the capitals of the first characters of the two
    names: one character per non-empty name, unchanged when the names are
    capitalised first, and already in upper case. *)
Theorem getInitials_of_names (firstName lastName : string) :
  String.length (getInitials firstName lastName)
  = ((if String.eqb firstName "" then 0 else 1)
     + (if String.eqb lastName "" then 0 else 1))%nat
  /\ getInitials (capitalizeFirst firstName) (capitalizeFirst lastName)
     = getInitials firstName lastName
  /\ toUpperCase (getInitials firstName lastName) = getInitials firstName lastName.
Proof.
  destruct firstName as [|c1 r1], lastName as [|c2 r2];
    rewrite ?capitalizeFirst_cons; unfold getInitials; simpl;
    rewrite ?upperChar_idem; repeat split; reflexivity.
Qed.

(** X21. For an urgency the colour helper and the badge agree exactly on
    the recognized values: the classes of the badge variant are
    [border-transparent] followed by the classes of [getPriorityColor]
    when the urgency is urgent, high, medium or low in any letter case,
    and differ for every other value (yellow badge, gray colour). *)
Theorem priority_badge_matches_color (urgency : string) :
  isRecognizedUrgency urgency = true
  <-> variantClass (AppointmentsPage.getPriorityVariant urgency)
      = "border-transparent " ++ getPriorityColor urgency.
Proof.
  unfold isRecognizedUrgency, AppointmentsPage.getPriorityVariant, getPriorityColor, oneOf.
  remember (toLowerCase urgency) as x eqn:Ex. clear Ex. simpl.
  destruct (String.eqb_spec x "urgent") as [->|H1]; [split; reflexivity|].
  destruct (String.eqb_spec x "high") as [->|H2]; [split; reflexivity|].
  destruct (String.eqb_spec x "medium") as [->|H3]; [split; reflexivity|].
  destruct (String.eqb_spec x "low") as [->|H4]; [split; reflexivity|].
  simpl. split; discriminate.
Qed.

(** X22. For a status the colour helper and the badge agree exactly on
    scheduled, confirmed, cancelled, in_progress and checked_in (in any
    letter case); they differ on every other value, among them completed
    (gray badge, green colour).  The colour does not depend on the letter
    case of the status. *)
Theorem status_badge_matches_color (status : string) :
  (oneOf (toLowerCase status)
     ["scheduled"; "confirmed"; "cancelled"; "in_progress"; "checked_in"] = true
   <-> variantClass (AppointmentsPage.getStatusVariant status)
       = "border-transparent " ++ getStatusColor status)
  /\ getStatusColor (toUpperCase status) = getStatusColor status
  /\ getStatusColor (toLowerCase status) = getStatusColor status.
Proof.
  split; [| split].
  - unfold AppointmentsPage.getStatusVariant, getStatusColor, oneOf.
    remember (toLowerCase status) as x eqn:Ex. clear Ex. simpl.
    destruct (String.eqb_spec x "scheduled") as [->|H1]; [split; reflexivity|].
    destruct (String.eqb_spec x "confirmed") as [->|H2]; [split; reflexivity|].
    destruct (String.eqb_spec x "cancelled") as [->|H3]; [split; reflexivity|].
    destruct (String.eqb_spec x "completed") as [->|H4]; [split; discriminate|].
    destruct (String.eqb_spec x "in_progress") as [->|H5]; [split; reflexivity|].
    destruct (String.eqb_spec x "checked_in") as [->|H6]; [split; reflexivity|].
    simpl.
    destruct (String.eqb x "active"), (String.eqb x "paid"), (String.eqb x "pending"),
      (String.eqb x "inactive"), (String.eqb x "denied"); simpl; split; discriminate.
  - unfold getStatusColor. rewrite toLowerCase_toUpperCase. reflexivity.
  - unfold getStatusColor. rewrite toLowerCase_idem. reflexivity.
Qed.

End MoreStrings.

(** ** Regular expressions and [isValidEmail] *)
Section Email.

Local Open Scope string_scope.

#[local] Arguments String.append !_ _ /.

Lemma append_nil_r (s : string) : s ++ "" = s.
Proof. induction s as [|c s IH]; [reflexivity|]. simpl. rewrite IH. reflexivity. Qed.

Lemma append_assoc (a b c : string) : (a ++ b) ++ c = a ++ (b ++ c).
Proof. induction a as [|x a IH]; [reflexivity|]. simpl. rewrite IH. reflexivity. Qed.

Lemma append_eq_nil (a b : string) : a ++ b = "" -> a = "" /\ b = "".
Proof. destruct a; simpl; [auto | discriminate]. Qed.

Lemma cat_inv r1 r2 s :
  Matches (Cat r1 r2) s ->
  exists s1 s2, s = s1 ++ s2 /\ Matches r1 s1 /\ Matches r2 s2.
Proof.
  intros H. inversion H; subst. do 2 eexists. split; [reflexivity|]. split; eassumption.
Qed.

Lemma nullable_correct r : nullable r = true <-> Matches r "".
Proof.
  induction r as [| | p | r1 IH1 r2 IH2 | r1 IH1 r2 IH2 | r IH]; simpl.
  - split; [discriminate | intros H; inversion H].
  - split; [intros _; constructor | reflexivity].
  - split; [discriminate | intros H; inversion H].
  - rewrite andb_true_iff, IH1, IH2. split.
    + intros [H1 H2]. apply (m_cat r1 r2 "" ""); assumption.
    + intros H. apply cat_inv in H as (s1 & s2 & E & H1 & H2).
      symmetry in E. apply append_eq_nil in E as [-> ->]. auto.
  - rewrite orb_true_iff, IH1, IH2. split.
    + intros [H|H]; [apply m_alt_l | apply m_alt_r]; assumption.
    + intros H. inversion H; subst; auto.
  - split; [intros _; constructor | reflexivity].
Qed.

Lemma star_cons_inv r c s :
  Matches (Star r) (String c s) ->
  exists s1 s2, s = s1 ++ s2 /\ Matches r (String c s1) /\ Matches (Star r) s2.
Proof.
  intros H. remember (Star r) as q eqn:Eq. remember (String c s) as t eqn:Et.
  revert c s Et.
  induction H as [| | | | | r' | r' s1 s2 H1 _ H2 IH2]; try discriminate Eq.
  - intros c s Et. discriminate Et.
  - injection Eq as ->. intros c s Et.
    destruct s1 as [|c1 s1']; simpl in Et.
    + apply IH2; [reflexivity | exact Et].
    + injection Et as -> <-. exists s1', s2. auto.
Qed.

Lemma deriv_correct r : forall c s, Matches (deriv c r) s <-> Matches r (String c s).
Proof.
  induction r as [| | p | r1 IH1 r2 IH2 | r1 IH1 r2 IH2 | r IH]; intros c s; simpl.
  - split; intros H; inversion H.
  - split; intros H; inversion H.
  - destruct (p c) eqn:E; split; intros H; inversion H; subst.
    + constructor. exact E.
    + constructor.
    + congruence.
  - assert (Matches (Cat (deriv c r1) r2) s
            <-> exists s1 s2, s = s1 ++ s2 /\ Matches r1 (String c s1) /\ Matches r2 s2)
      as Hcat.
    { split.
      - intros H. apply cat_inv in H as (s1 & s2 & -> & H1 & H2).
        exists s1, s2. rewrite <- IH1. auto.
      - intros (s1 & s2 & -> & H1 & H2). constructor; [apply IH1|]; assumption. }
    assert (Matches (Cat r1 r2) (String c s)
            <-> (exists s1 s2, s = s1 ++ s2 /\ Matches r1 (String c s1) /\ Matches r2 s2)
                \/ (Matches r1 "" /\ Matches r2 (String c s))) as Hfull.
    { split.
      - intros H. apply cat_inv in H as (s1 & s2 & E & H1 & H2).
        destruct s1 as [|c1 s1']; simpl in E.
        + right. subst s2. auto.
        + injection E as <- ->. left. exists s1', s2. auto.
      - intros [(s1 & s2 & -> & H1 & H2) | [H1 H2]].
        + apply (m_cat r1 r2 (String c s1) s2); assumption.
        + apply (m_cat r1 r2 "" (String c s)); assumption. }
    rewrite Hfull. destruct (nullable r1) eqn:En.
    + split.
      * intros H. inversion H; subst.
        -- left. apply Hcat. assumption.
        -- right. split; [apply nullable_correct; exact En | apply IH2; assumption].
      * intros [H | [_ H2]].
        -- apply m_alt_l, Hcat, H.
        -- apply m_alt_r, IH2, H2.
    + rewrite Hcat. split; [auto|].
      intros [H | [H1 _]]; [exact H|].
      apply nullable_correct in H1. congruence.
  - split; intros H; inversion H; subst;
      [apply m_alt_l, IH1 | apply m_alt_r, IH2 | apply m_alt_l, IH1 | apply m_alt_r, IH2];
      assumption.
  - split.
    + intros H. apply cat_inv in H as (s1 & s2 & -> & H1 & H2).
      apply (m_star_cons r (String c s1) s2); [apply IH|]; assumption.
    + intros H. apply star_cons_inv in H as (s1 & s2 & -> & H1 & H2).
      constructor; [apply IH|]; assumption.
Qed.

(** [test] decides the language of the pattern. *)
Lemma test_correct r : forall s, test r s = true <-> Matches r s.
Proof.
  intros s. revert r. induction s as [|c s IH]; intros r; simpl.
  - apply nullable_correct.
  - rewrite IH. apply deriv_correct.
Qed.

Lemma star_class p s : Matches (Star (Class p)) s <-> allChars p s = true.
Proof.
  split.
  - intros H. remember (Star (Class p)) as q eqn:Eq.
    induction H as [| | | | | r' | r' s1 s2 H1 _ H2 IH2]; try discriminate Eq.
    + reflexivity.
    + injection Eq as ->. inversion H1; subst. simpl.
      rewrite IH2 by reflexivity. rewrite andb_true_r. assumption.
  - induction s as [|c s IH]; simpl; intros H; [constructor|].
    apply andb_true_iff in H as [Hc Hs].
    apply (m_star_cons (Class p) (String c "") s); [constructor|]; auto.
Qed.

Lemma plus_class p s :
  Matches (Plus (Class p)) s <-> s <> "" /\ allChars p s = true.
Proof.
  unfold Plus. split.
  - intros H. apply cat_inv in H as (s1 & s2 & -> & H1 & H2).
    inversion H1; subst. apply star_class in H2. simpl.
    split; [discriminate|]. rewrite H2, andb_true_r. assumption.
  - intros [Hne H]. destruct s as [|c s]; [contradiction|]. simpl in H.
    apply andb_true_iff in H as [Hc Hs].
    apply (m_cat (Class p) (Star (Class p)) (String c "") s);
      [constructor; assumption | apply star_class; assumption].
Qed.

Lemma class_char x s : Matches (Class (Ascii.eqb x)) s <-> s = String x "".
Proof.
  split.
  - intros H. inversion H as [| p c Hc | | | | |]; subst.
    apply Ascii.eqb_eq in Hc. subst. reflexivity.
  - intros ->. constructor. apply Ascii.eqb_refl.
Qed.

Lemma isValidEmail_parts email :
  isValidEmail email = true
  <-> exists a b c,
        email = a ++ "@" ++ b ++ "." ++ c
        /\ a <> "" /\ b <> "" /\ c <> ""
        /\ allChars emailAtom a = true /\ allChars emailAtom b = true
        /\ allChars emailAtom c = true.
Proof.
  unfold isValidEmail, emailRegex. rewrite test_correct. split.
  - intros H.
    apply cat_inv in H as (a & s2 & -> & Ha & H2).
    apply cat_inv in H2 as (x & s3 & -> & Hx & H3).
    apply cat_inv in H3 as (b & s4 & -> & Hb & H4).
    apply cat_inv in H4 as (y & c & -> & Hy & Hc).
    apply plus_class in Ha as [Ha1 Ha2]. apply plus_class in Hb as [Hb1 Hb2].
    apply plus_class in Hc as [Hc1 Hc2].
    apply class_char in Hx. apply class_char in Hy. subst x y.
    exists a, b, c. repeat split; assumption.
  - intros (a & b & c & -> & Ha & Hb & Hc & Pa & Pb & Pc).
    apply m_cat; [apply plus_class; auto|].
    apply (m_cat _ _ "@"); [apply class_char; reflexivity|].
    apply m_cat; [apply plus_class; auto|].
    apply (m_cat _ _ "."); [apply class_char; reflexivity|].
    apply plus_class; auto.
Qed.

Lemma countChar_app x a b : countChar x (a ++ b) = (countChar x a + countChar x b)%nat.
Proof. induction a as [|c a IH]; [reflexivity|]. simpl. rewrite IH. lia. Qed.

Lemma allChars_app p a b : allChars p (a ++ b) = allChars p a && allChars p b.
Proof.
  induction a as [|c a IH]; [reflexivity|]. simpl. rewrite IH, andb_assoc. reflexivity.
Qed.

Lemma emailAtom_no_at s : allChars emailAtom s = true -> countChar "@" s = 0%nat.
Proof.
  induction s as [|c s IH]; [reflexivity|]. simpl. intros H.
  apply andb_true_iff in H as [Hc Hs]. unfold emailAtom in Hc.
  apply andb_true_iff in Hc as [_ Hc]. destruct (Ascii.eqb c "@"); [discriminate|].
  rewrite IH by assumption. reflexivity.
Qed.

Lemma emailAtom_no_space s :
  allChars emailAtom s = true -> allChars (fun c => negb (isWhiteSpace c)) s = true.
Proof.
  induction s as [|c s IH]; [reflexivity|]. simpl. intros H.
  apply andb_true_iff in H as [Hc Hs]. unfold emailAtom in Hc.
  apply andb_true_iff in Hc as [Hc _]. rewrite Hc, IH by assumption. reflexivity.
Qed.

(** X23. [isValidEmail] accepts exactly the strings of the form
    [local@domain.tail] whose three parts are non-empty and contain
    neither white space nor [@]; so an accepted string has exactly one
    [@] and no white space, and a string without a dot after the [@] is
    rejected. *)
Theorem isValidEmail_shape (email : string) :
  (isValidEmail email = true
   <-> exists a b c,
         email = a ++ "@" ++ b ++ "." ++ c
         /\ a <> "" /\ b <> "" /\ c <> ""
         /\ allChars emailAtom a = true /\ allChars emailAtom b = true
         /\ allChars emailAtom c = true)
  /\ (isValidEmail email = true ->
      countChar "@" email = 1%nat
      /\ allChars (fun c => negb (isWhiteSpace c)) email = true).
Proof.
  split; [apply isValidEmail_parts|].
  intros H. apply isValidEmail_parts in H
    as (a & b & c & -> & Ha & Hb & Hc & Pa & Pb & Pc).
  split.
  - rewrite !countChar_app, (emailAtom_no_at a), (emailAtom_no_at b), (emailAtom_no_at c)
      by assumption. reflexivity.
  - rewrite !allChars_app, (emailAtom_no_space a), (emailAtom_no_space b),
      (emailAtom_no_space c) by assumption. reflexivity.
Qed.

Lemma isValidEmail_shape_witness :
  isValidEmail "jo.doe@clinic.example.org" = true
  /\ countChar "@" "jo.doe@clinic.example.org" = 1%nat.
Proof.
  split; [reflexivity |].
  apply (proj2 (isValidEmail_shape "jo.doe@clinic.example.org")). reflexivity.
Defined.

Example isValidEmail_examples :
  isValidEmail "a@b.co" = true
  /\ isValidEmail "not-an-email" = false
  /\ isValidEmail "a@b" = false
  /\ isValidEmail "a b@c.de" = false
  /\ isValidEmail "a@b@c.de" = false
  /\ isValidEmail "a@.de" = false.
Proof. repeat split. Qed.

End Email.
